(** * update.py: version resolution for the CrateDB Dockerfile generator

    A shallow embedding of [update.py] and the properties of its
    version handling, its HTTP existence probes, its JDK table and its
    template selection.

    Conventions of the embedding.
    - Python [str] values are Rocq strings; a character is a code point
      below 256.
    - Python [int] values are [Z] (unbounded).  The interpreter's optional
      cap on the number of digits converted between [int] and [str] is
      taken as switched off.
    - A Python exception is a value of [exception]; a computation that may
      raise returns [exception + A], [inl] for a raise.
    - Everything the script reads from outside (HTTP, the file system, the
      clock, the template engine) comes from a [world] record, and every
      such access is appended to a log, so that what the script did and
      did not do can be stated. *)

From Stdlib Require Import ZArith String Ascii List Bool Lia.
From Stdlib Require Import Decimal DecimalString DecimalZ DecimalFacts.
From stdpp Require Import gmap.
Import ListNotations.

#[local] Open Scope Z_scope.
#[local] Open Scope string_scope.

(** ** Exceptions *)

(** The exception classes the script can meet.  [HTTPError] is a subclass
    of [URLError]; [TemplateNotFound] belongs to the template engine;
    [OtherException cls] stands for an instance of any class that is not
    one of the named ones nor a subclass of them (for instance
    [http.client.RemoteDisconnected]). *)
Inductive exception : Type :=
| TypeError (msg : string)
| ValueError (msg : string)
| KeyError (key : string)
| AttributeError (msg : string)
| URLError (reason : string)
| HTTPError (code : Z)
| TemplateNotFound (name : string)
| OtherException (cls : string).

(** [isinstance(e, URLError)], the test made by [except URLError]. *)
Definition isinstance_URLError (e : exception) : bool :=
  match e with
  | URLError _ | HTTPError _ => true
  | _ => false
  end.

(** The spec's FormatError: what [Version.parse] raises on malformed text.
    [int] raises [ValueError]; a call of [Version] with too few arguments
    raises [TypeError]. *)
Definition is_FormatError (e : exception) : bool :=
  match e with
  | TypeError _ | ValueError _ => true
  | _ => false
  end.

(** The spec's NotFoundError: the script raises [ValueError] for it. *)
Definition is_NotFoundError (e : exception) : bool :=
  match e with
  | ValueError _ => true
  | _ => false
  end.

(** ** Python built-ins used by [Version] *)

Module Py.

(** White space as [int] skips it around a literal.  In ASCII: tab, line
    feed, vertical tab, form feed, carriage return and space (the
    separators 28 to 31 are not skipped).  Above ASCII, every Unicode
    white space; below 256 these are next line (133) and no-break space
    (160).  Below 256 the only decimal digits are ["0"] to ["9"]. *)
Definition is_space (c : ascii) : bool :=
  let n := nat_of_ascii c in
  ((9 <=? n)%nat && (n <=? 13)%nat) || (n =? 32)%nat || (n =? 133)%nat || (n =? 160)%nat.

Fixpoint lstrip (s : string) : string :=
  match s with
  | String c r => if is_space c then lstrip r else s
  | EmptyString => EmptyString
  end.

Fixpoint rstrip (s : string) : string :=
  match s with
  | String c r =>
      match rstrip r with
      | EmptyString => if is_space c then EmptyString else String c EmptyString
      | r' => String c r'
      end
  | EmptyString => EmptyString
  end.

Definition strip (s : string) : string := rstrip (lstrip s).

(** A decimal digit prepends itself to the digits that follow it. *)
Definition digit_of (c : ascii) : option (uint -> uint) :=
  match c with
  | "0" => Some D0 | "1" => Some D1 | "2" => Some D2 | "3" => Some D3
  | "4" => Some D4 | "5" => Some D5 | "6" => Some D6 | "7" => Some D7
  | "8" => Some D8 | "9" => Some D9
  | _ => None
  end%char.

(** The digits of an integer literal in base 10: it starts with a digit,
    and a single underscore may stand between two digits. *)
Fixpoint literal_digits (s : string) : option uint :=
  match s with
  | EmptyString => None
  | String c r =>
      match digit_of c with
      | None => None
      | Some D =>
          match r with
          | EmptyString => Some (D Nil)
          | String "_"%char r' => option_map D (literal_digits r')
          | _ => option_map D (literal_digits r)
          end
      end
  end.

(** [int(s)] for a [str] argument: surrounding white space is dropped, one
    sign is allowed, then come the digits.  The text of the error message
    is shortened (Python adds the [repr] of the argument). *)
Definition int_of_body (negative : bool) (body : string) : exception + Z :=
  match literal_digits body with
  | Some d => inr (if negative then - Z.of_uint d else Z.of_uint d)
  | None => inl (ValueError "invalid literal for int() with base 10")
  end.

Definition int (s : string) : exception + Z :=
  match strip s with
  | String "+"%char r => int_of_body false r
  | String "-"%char r => int_of_body true r
  | t => int_of_body false t
  end.

(** [str(n)] for an [int]: decimal digits, a minus sign when negative. *)
Definition str (n : Z) : string := NilZero.string_of_int (Z.to_int n).

(** [s.split(sep, maxsplit)] for a separator of one character: at most
    [maxsplit] cuts, made at the first occurrences from the left. *)
Fixpoint split (sep : ascii) (maxsplit : nat) (s : string) : list string :=
  match s with
  | EmptyString => [EmptyString]
  | String c r =>
      match maxsplit with
      | S m =>
          if Ascii.eqb c sep then EmptyString :: split sep m r
          else match split sep maxsplit r with
               | h :: t => String c h :: t
               | [] => [String c EmptyString]
               end
      | O => [s]
      end
  end.

(** [s.split(sep)]: a cut at every separator. *)
Fixpoint split_all (sep : ascii) (s : string) : list string :=
  match s with
  | EmptyString => [EmptyString]
  | String c r =>
      if Ascii.eqb c sep then EmptyString :: split_all sep r
      else match split_all sep r with
           | h :: t => String c h :: t
           | [] => [String c EmptyString]
           end
  end.

(** [map(f, xs)] consumed by argument unpacking: the calls are made from
    left to right and the first raise ends the iteration. *)
Fixpoint map_raising {A B} (f : A -> exception + B) (xs : list A) : exception + list B :=
  match xs with
  | [] => inr []
  | x :: r =>
      match f x with
      | inl e => inl e
      | inr y =>
          match map_raising f r with
          | inl e => inl e
          | inr ys => inr (y :: ys)
          end
      end
  end.

End Py.

(** ** [class Version(NamedTuple)] *)

Record Version : Type := mkVersion { major : Z; minor : Z; hotfix : Z }.

Module Version.

(** A [Version] is a tuple: as a dictionary key it is its three fields. *)
Definition astuple (v : Version) : Z * Z * Z := (major v, minor v, hotfix v).

(** [len(v)], which decides the truth value of a tuple. *)
Definition len (v : Version) : nat := 3.

(** [Version.parse(s)]: the pieces of [s.split('.', maxsplit=2)] go
    through [map(int, ...)] and are unpacked as the arguments of
    [Version].  The unpacking runs [int] over all the pieces first; then
    [Version] wants exactly three arguments, and raises [TypeError] for
    fewer (the text of its message is shortened). *)
Definition parse (s : string) : exception + Version :=
  match Py.map_raising Py.int (Py.split "." 2 s) with
  | inl e => inl e
  | inr [a; b; c] => inr (mkVersion a b c)
  | inr _ => inl (TypeError "__new__() missing required positional arguments")
  end.

(** [Version.__str__]: [f'{self.major}.{self.minor}.{self.hotfix}']. *)
Definition __str__ (v : Version) : string :=
  Py.str (major v) ++ "." ++ Py.str (minor v) ++ "." ++ Py.str (hotfix v).

End Version.

(** ** The static JDK table *)

(** [JDK_URLS]: a dictionary from version triples to download URLs. *)
Definition JDK_URLS : gmap (Z * Z * Z) string :=
  <[ (12, 0, 1) := "https://download.java.net/java/GA/jdk12.0.1/69cfe15208a647278a19ef0990eea691/12/GPL/openjdk-12.0.1_linux-x64_bin.tar.gz" ]>
  (<[ (11, 0, 1) := "https://download.java.net/java/GA/jdk11/13/GPL/openjdk-11.0.1_linux-x64_bin.tar.gz" ]> ∅).

(** ** The outside world *)

Inductive method : Type := GET | HEAD.

(** A decoded JSON document, as [json.load] returns it: an object is a
    dictionary. *)
#[warnings="-register-all"]
Inductive json : Type :=
| JNull
| JBool (b : bool)
| JInt (n : Z)
| JFloat (text : string)
| JStr (s : string)
| JList (items : list json)
| JDict (fields : gmap string json).

(** What the script does with an open response [r]: either
    [r.read().decode('utf-8')] or [json.load(r)]; each may raise. *)
Record response : Type := {
  read_decode_utf8 : exception + string;
  json_load : exception + json
}.

(** The keyword arguments of [template.render]. *)
Record bindings : Type := {
  CRATE_VERSION : Version;
  CRASH_VERSION : Version;
  JDK_VERSION : string;
  JDK_URL : string;
  JDK_SHA256 : string;
  BUILD_TIMESTAMP : string
}.

(** A loaded template: rendering is a function of the bindings. *)
Record Template : Type := { render : bindings -> exception + string }.

(** One entry of the log per access to the outside. *)
Inductive event : Type :=
| Urlopen (m : method) (url : string)
| PathExists (path : string)
| GetTemplate (name : string)
| Utcnow
| Render (b : bindings)
| Stdout (text : string).

(** The log, most recent event first. *)
Definition log : Type := list event.

(** The outside world.  Every answer may depend on what happened before
    (the log so far), so two requests for one URL may differ.
    - [urlopen]: the outcome of [urlopen] for a method and a URL;
    - [os_path_exists]: [os.path.exists] of a relative path, which the
      operating system resolves against the working directory;
    - [get_template]: [env.get_template] of the environment whose loader
      reads the directory of the script, [os.path.dirname(__file__)];
    - [utcnow_isoformat]: [datetime.utcnow().isoformat()]. *)
Record world : Type := {
  urlopen : log -> method -> string -> exception + response;
  os_path_exists : log -> string -> bool;
  get_template : log -> string -> exception + Template;
  utcnow_isoformat : log -> string
}.

(** ** Computations: a log threaded through, and exceptions *)

Definition M (A : Type) : Type := log -> (exception + A) * log.

Definition ret {A} (a : A) : M A := fun l => (inr a, l).

Definition raise {A} (e : exception) : M A := fun l => (inl e, l).

Definition bind {A B} (m : M A) (k : A -> M B) : M B :=
  fun l =>
    match m l with
    | (inr a, l') => k a l'
    | (inl e, l') => (inl e, l')
    end.

(** A value or a raise computed without touching the outside. *)
Definition lift {A} (r : exception + A) : M A := fun l => (r, l).

(** [try: body except <classes>: handler]. *)
Definition try_except {A} (body : M A) (catches : exception -> bool) (handler : M A) : M A :=
  fun l =>
    match body l with
    | (inl e, l') => if catches e then handler l' else (inl e, l')
    | r => r
    end.

Declare Scope prog_scope.
Delimit Scope prog_scope with prog.
Notation "x <- m ;; k" := (bind m (fun x => k))
  (at level 20, m at level 99, k at level 200, only parsing) : prog_scope.
Notation "' p <- m ;; k" := (bind m (fun p => k))
  (at level 20, p pattern, m at level 99, k at level 200, only parsing) : prog_scope.
Notation "m ;;; k" := (bind m (fun _ => k))
  (at level 100, k at level 200, right associativity, only parsing) : prog_scope.
#[local] Open Scope prog_scope.

(** Python truth values of the optional arguments: [None] is false, a tuple
    is true unless empty, a string is true unless empty. *)
Definition truthy_version (o : option Version) : bool :=
  match o with
  | Some v => negb (Nat.eqb (Version.len v) 0)
  | None => false
  end.

Definition truthy_str (o : option string) : bool :=
  match o with
  | Some s => negb (String.eqb s "")
  | None => false
  end.

(** ** The script *)

(** [args] as [parser.parse_args()] returns it: the three versions have
    gone through [Version.parse]; an option that was not given is [None]. *)
Record args : Type := {
  cratedb_version : Version;
  crash_version : option Version;
  jdk_version : option Version;
  template : option string
}.

Section Script.

Variable w : world.

Definition call_urlopen (m : method) (url : string) : M response :=
  fun l => (urlopen w l m url, Urlopen m url :: l).

Definition call_path_exists (path : string) : M bool :=
  fun l => (inr (os_path_exists w l path), PathExists path :: l).

Definition call_get_template (name : string) : M Template :=
  fun l => (get_template w l name, GetTemplate name :: l).

Definition call_utcnow_isoformat : M string :=
  fun l => (inr (utcnow_isoformat w l), Utcnow :: l).

Definition call_render (t : Template) (b : bindings) : M string :=
  fun l => (render t b, Render b :: l).

Definition print (text : string) : M unit :=
  fun l => (inr tt, Stdout text :: l).

(** [d['crash']] on a decoded document. *)
Definition getitem_crash (d : json) : exception + json :=
  match d with
  | JDict fields =>
      match fields !! "crash" with
      | Some x => inr x
      | None => inl (KeyError "crash")
      end
  | JList _ => inl (TypeError "list indices must be integers or slices, not str")
  | JStr _ => inl (TypeError "string indices must be integers")
  | _ => inl (TypeError "object is not subscriptable")
  end.

(** [Version.parse(x)] on a decoded value: only a string has [split]. *)
Definition parse_json (x : json) : exception + Version :=
  match x with
  | JStr s => Version.parse s
  | _ => inl (AttributeError "object has no attribute 'split'")
  end.

Definition latest_crash : M Version :=
  r <- call_urlopen GET "https://crate.io/versions.json" ;;
  d <- lift (json_load r) ;;
  x <- lift (getitem_crash d) ;;
  lift (parse_json x).

(** The membership test [jdk_version not in JDK_URLS] and the indexing
    [JDK_URLS[jdk_version]] are one lookup of the table. *)
Definition jdk_url_and_sha (jdk_version : Version) : M (string * string) :=
  match JDK_URLS !! Version.astuple jdk_version with
  | None =>
      raise (ValueError ("No URL for JDK version " ++ Version.__str__ jdk_version ++ " found."))
  | Some url =>
      r <- call_urlopen GET (url ++ ".sha256") ;;
      sha256 <- lift (read_decode_utf8 r) ;;
      ret (url, sha256)
  end.

Definition url_exists (url : string) : M bool :=
  try_except
    (call_urlopen HEAD url ;;; ret true)
    isinstance_URLError
    (ret false).

Definition crash_url (v : Version) : string :=
  "https://cdn.crate.io/downloads/releases/crash_standalone_" ++ Version.__str__ v.

Definition ensure_existing_crash (crash_version : option Version) : M Version :=
  match crash_version with
  | Some v =>
      if truthy_version crash_version then
        found <- url_exists (crash_url v) ;;
        if found then ret v
        else raise (ValueError ("No release found for crash " ++ Version.__str__ v))
      else latest_crash
  | None => latest_crash
  end.

Definition cratedb_url (v : Version) : string :=
  "https://cdn.crate.io/downloads/releases/crate-" ++ Version.__str__ v ++ ".tar.gz".

Definition ensure_existing_cratedb (cratedb_version : Version) : M Version :=
  found <- url_exists (cratedb_url cratedb_version) ;;
  if found then ret cratedb_version
  else raise (ValueError ("No release found for CrateDB " ++ Version.__str__ cratedb_version)).

Definition versioned_template (v : Version) : string :=
  "Dockerfile_" ++ Py.str (major v) ++ "." ++ Py.str (minor v) ++ ".j2".

Definition find_template_for_version (cratedb_version : Version) : M string :=
  present <- call_path_exists (versioned_template cratedb_version) ;;
  ret (if present then versioned_template cratedb_version else "Dockerfile.j2").

(** Line 87 of [main]. *)
Definition jdk_version_default (cratedb_version : Version) : Version :=
  if (major cratedb_version >=? 4)%Z then mkVersion 12 0 1 else mkVersion 11 0 1.

(** [args.jdk_version or jdk_version_default]. *)
Definition resolve_jdk_version (a : args) (cratedb_version : Version) : Version :=
  match jdk_version a with
  | Some v => if truthy_version (jdk_version a) then v else jdk_version_default cratedb_version
  | None => jdk_version_default cratedb_version
  end.

(** Line 90 of [main], [args.template or find_template_for_version(...)]:
    the right operand of [or] is evaluated only when the left one is
    false. *)
Definition resolve_template (a : args) (cratedb_version : Version) : M string :=
  match template a with
  | Some t => if truthy_str (template a) then ret t else find_template_for_version cratedb_version
  | None => find_template_for_version cratedb_version
  end.

Definition main (a : args) : M unit :=
  cratedb <- ensure_existing_cratedb (cratedb_version a) ;;
  let jdk := resolve_jdk_version a cratedb in
  '(jdk_url, jdk_sha256) <- jdk_url_and_sha jdk ;;
  name <- resolve_template a cratedb ;;
  t <- call_get_template name ;;
  crate <- ensure_existing_cratedb (cratedb_version a) ;;
  crash <- ensure_existing_crash (crash_version a) ;;
  now <- call_utcnow_isoformat ;;
  text <- call_render t {| CRATE_VERSION := crate;
                           CRASH_VERSION := crash;
                           JDK_VERSION := Version.__str__ jdk;
                           JDK_URL := jdk_url;
                           JDK_SHA256 := jdk_sha256;
                           BUILD_TIMESTAMP := now |} ;;
  print text.

End Script.

Arguments call_urlopen w m url l /.
Arguments call_path_exists w path l /.
Arguments call_get_template w name l /.
Arguments ret {A} a l /.
Arguments raise {A} e l /.
Arguments lift {A} r l /.
Arguments bind {A B} m k l /.
Arguments try_except {A} body catches handler l /.

(** ** Text predicates used to state the properties of [Version] *)

Fixpoint all_chars (P : ascii -> bool) (s : string) : bool :=
  match s with
  | EmptyString => true
  | String c r => P c && all_chars P r
  end.

Definition is_digit (c : ascii) : bool :=
  match Py.digit_of c with Some _ => true | None => false end.

Definition differs_from (x : ascii) (c : ascii) : bool := negb (Ascii.eqb c x).

(** The decimal numeral of a natural number as [str] writes it: digits
    only, and no leading zero unless the numeral is ["0"]. *)
Definition canonical_unsigned (s : string) : bool :=
  match s with
  | EmptyString => false
  | String c r => all_chars is_digit s && (differs_from "0" c || String.eqb r "")
  end.

(** The numeral of an integer as [str] writes it: a minus sign only before
    a numeral other than ["0"]. *)
Definition canonical_numeral (s : string) : bool :=
  match s with
  | String "-"%char r => canonical_unsigned r && negb (String.eqb r "0")
  | _ => canonical_unsigned s
  end.

(** A text in the form [__str__] produces: three canonical numerals
    joined by dots. *)
Definition canonical_version_text (s : string) : bool :=
  match Py.split_all "." s with
  | [a; b; c] => canonical_numeral a && canonical_numeral b && canonical_numeral c
  | _ => false
  end.

(** The spec's words for the input of [parse]: the text splits at its
    dots into exactly three components, each of which [int] accepts. *)
Definition int_parsable (s : string) : bool :=
  match Py.int s with inr _ => true | inl _ => false end.

Definition three_int_components (s : string) : bool :=
  match Py.split_all "." s with
  | [a; b; c] => int_parsable a && int_parsable b && int_parsable c
  | _ => false
  end.


(** The template directory is where the loader of [main] looks: a name is
    in it unless [get_template] raises [TemplateNotFound] for it. *)
Definition in_template_directory (w : world) (l : log) (name : string) : bool :=
  match get_template w l name with
  | inl (TemplateNotFound _) => false
  | _ => true
  end.

(** ** Sample worlds *)

Module Samples.

Definition echo_template : Template :=
  {| render := fun b => inr (Version.__str__ (CRATE_VERSION b) ++ " " ++ JDK_VERSION b) |}.

Definition versions_json : json :=
  JDict (<[ "crash" := JStr "0.24.2" ]> (<[ "crate" := JStr "4.1.0" ]> ∅)).

Definition good_response : response :=
  {| read_decode_utf8 := inr "0f3a"; json_load := inr versions_json |}.

(** Every request succeeds; no versioned template in the working
    directory; every template name loads. *)
Definition online : world :=
  {| urlopen := fun _ _ _ => inr good_response;
     os_path_exists := fun _ _ => false;
     get_template := fun _ _ => inr echo_template;
     utcnow_isoformat := fun _ => "2019-06-01T12:00:00" |}.

(** Every HEAD request is answered 404, which [urlopen] raises as
    [HTTPError]; other requests succeed. *)
Definition nothing_released : world :=
  {| urlopen := fun _ m _ => match m with HEAD => inl (HTTPError 404) | GET => inr good_response end;
     os_path_exists := fun _ _ => false;
     get_template := fun _ _ => inr echo_template;
     utcnow_isoformat := fun _ => "2019-06-01T12:00:00" |}.

(** The server closes the connection without answering: [urlopen] lets
    [http.client.RemoteDisconnected] through, which is not a [URLError]. *)
Definition disconnecting : world :=
  {| urlopen := fun _ _ _ => inl (OtherException "http.client.RemoteDisconnected");
     os_path_exists := fun _ _ => false;
     get_template := fun _ _ => inr echo_template;
     utcnow_isoformat := fun _ => "2019-06-01T12:00:00" |}.

(** The script is started from a working directory that is not its own:
    the directory of the script holds [Dockerfile_4.1.j2] and
    [Dockerfile.j2], the working directory holds neither. *)
Definition started_elsewhere : world :=
  {| urlopen := fun _ _ _ => inr good_response;
     os_path_exists := fun _ _ => false;
     get_template := fun _ name =>
       if String.eqb name "Dockerfile_4.1.j2" || String.eqb name "Dockerfile.j2"
       then inr echo_template else inl (TemplateNotFound name);
     utcnow_isoformat := fun _ => "2019-06-01T12:00:00" |}.

Definition only_cratedb (v : Version) : args :=
  {| cratedb_version := v; crash_version := None; jdk_version := None; template := None |}.

Definition with_jdk (v j : Version) : args :=
  {| cratedb_version := v; crash_version := None; jdk_version := Some j; template := None |}.

End Samples.


(** ** Reading the log *)


Definition is_path_exists (e : event) : bool :=
  match e with PathExists _ => true | _ => false end.

(** A computation keeps the events of a kind when it adds none of them to
    the log, whatever its outcome; it keeps them on a raise when it adds
    none in the runs that end with an exception. *)
Definition keeps (P : event -> bool) {A} (m : M A) : Prop :=
  forall l r l', m l = (r, l') -> List.filter P l' = List.filter P l.

Definition keeps_on_raise (P : event -> bool) {A} (m : M A) : Prop :=
  forall l e l', m l = (inl e, l') -> List.filter P l' = List.filter P l.

(** The one request [ensure_existing_crash] makes. *)
Definition crash_request (crash_version : option Version) : event :=
  match crash_version with
  | Some v => Urlopen HEAD (crash_url v)
  | None => Urlopen GET "https://crate.io/versions.json"
  end.

(** The look at the file system made for the template name, if any. *)
Definition template_lookups (a : args) : list event :=
  if truthy_str (template a) then []
  else [PathExists (versioned_template (cratedb_version a))].


(** ** More sample worlds and arguments *)

Module Cases.

Definition with_template (v : Version) (t : string) : args :=
  {| cratedb_version := v; crash_version := None; jdk_version := None; template := Some t |}.

Definition with_crash (v c : Version) : args :=
  {| cratedb_version := v; crash_version := Some c; jdk_version := None; template := None |}.

(** The metadata endpoint cannot be reached; everything else answers. *)
Definition metadata_down : world :=
  {| urlopen := fun _ m url =>
       match m with
       | GET => if String.eqb url "https://crate.io/versions.json"
                then inl (URLError "Name or service not known")
                else inr Samples.good_response
       | HEAD => inr Samples.good_response
       end;
     os_path_exists := fun _ _ => false;
     get_template := fun _ _ => inr Samples.echo_template;
     utcnow_isoformat := fun _ => "2019-06-01T12:00:00" |}.

(** The checksum files cannot be fetched: the server answers 503. *)
Definition checksum_down : world :=
  {| urlopen := fun _ m url =>
       match m with
       | GET => if String.eqb url "https://crate.io/versions.json"
                then inr Samples.good_response
                else inl (HTTPError 503)
       | HEAD => inr Samples.good_response
       end;
     os_path_exists := fun _ _ => false;
     get_template := fun _ _ => inr Samples.echo_template;
     utcnow_isoformat := fun _ => "2019-06-01T12:00:00" |}.

(** The metadata document names no client release. *)
Definition no_crash_field : world :=
  {| urlopen := fun _ _ _ =>
       inr {| read_decode_utf8 := inr "0f3a";
              json_load := inr (JDict (<[ "crate" := JStr "4.1.0" ]> ∅)) |};
     os_path_exists := fun _ _ => false;
     get_template := fun _ _ => inr Samples.echo_template;
     utcnow_isoformat := fun _ => "2019-06-01T12:00:00" |}.

(** The versioned template is present in the working directory. *)
Definition versioned_present : world :=
  {| urlopen := fun _ _ _ => inr Samples.good_response;
     os_path_exists := fun _ _ => true;
     get_template := fun _ _ => inr Samples.echo_template;
     utcnow_isoformat := fun _ => "2019-06-01T12:00:00" |}.

(** The release archive is there when the run starts and gone afterwards:
    the first request of the run is answered, every later HEAD request
    gets a 404. *)
Definition vanishing : world :=
  {| urlopen := fun l m _ =>
       match m, l with
       | HEAD, (_ :: _)%list => inl (HTTPError 404)
       | _, _ => inr Samples.good_response
       end;
     os_path_exists := fun _ _ => false;
     get_template := fun _ _ => inr Samples.echo_template;
     utcnow_isoformat := fun _ => "2019-06-01T12:00:00" |}.

End Cases.

(** * Properties *)

(** ** Sample runs *)

Example parse_4_1_0 : Version.parse "4.1.0" = inr (mkVersion 4 1 0).
Proof. reflexivity. Qed.

Example parse_lenient : Version.parse " +01.2_0.3 " = inr (mkVersion 1 20 3).
Proof. reflexivity. Qed.

Example parse_two_pieces : Version.parse "4.1" = inl (TypeError "__new__() missing required positional arguments").
Proof. reflexivity. Qed.

Example parse_four_pieces : Version.parse "4.1.0.2" = inl (ValueError "invalid literal for int() with base 10").
Proof. reflexivity. Qed.

Example int_underscore : Py.int "1_000" = inr 1000.
Proof. reflexivity. Qed.

Example int_leading_underscore : Py.int "_1" = inl (ValueError "invalid literal for int() with base 10").
Proof. reflexivity. Qed.

Example int_sign_then_space : Py.int "+ 1" = inl (ValueError "invalid literal for int() with base 10").
Proof. reflexivity. Qed.

Example int_negative_zero : Py.int "-0" = inr 0.
Proof. reflexivity. Qed.

Example split_keeps_rest : Py.split "." 2 "4.1.0.2" = ["4"; "1"; "0.2"].
Proof. reflexivity. Qed.

Example str_4_1_0 : Version.__str__ (mkVersion 4 1 0) = "4.1.0".
Proof. reflexivity. Qed.

Example str_negative : Version.__str__ (mkVersion (-1) 20 0) = "-1.20.0".
Proof. reflexivity. Qed.

Example main_nothing_released :
  main Samples.nothing_released (Samples.only_cratedb (mkVersion 4 1 0)) [] =
  (inl (ValueError "No release found for CrateDB 4.1.0"),
   [Urlopen HEAD "https://cdn.crate.io/downloads/releases/crate-4.1.0.tar.gz"]).
Proof. vm_compute. reflexivity. Qed.

Example main_online_4_1_0 :
  main Samples.online (Samples.only_cratedb (mkVersion 4 1 0)) [] =
  (inr tt,
   [ Stdout "4.1.0 12.0.1";
     Render {| CRATE_VERSION := mkVersion 4 1 0;
               CRASH_VERSION := mkVersion 0 24 2;
               JDK_VERSION := "12.0.1";
               JDK_URL := "https://download.java.net/java/GA/jdk12.0.1/69cfe15208a647278a19ef0990eea691/12/GPL/openjdk-12.0.1_linux-x64_bin.tar.gz";
               JDK_SHA256 := "0f3a";
               BUILD_TIMESTAMP := "2019-06-01T12:00:00" |};
     Utcnow;
     Urlopen GET "https://crate.io/versions.json";
     Urlopen HEAD "https://cdn.crate.io/downloads/releases/crate-4.1.0.tar.gz";
     GetTemplate "Dockerfile.j2";
     PathExists "Dockerfile_4.1.j2";
     Urlopen GET "https://download.java.net/java/GA/jdk12.0.1/69cfe15208a647278a19ef0990eea691/12/GPL/openjdk-12.0.1_linux-x64_bin.tar.gz.sha256";
     Urlopen HEAD "https://cdn.crate.io/downloads/releases/crate-4.1.0.tar.gz" ]%list).
Proof. vm_compute. reflexivity. Qed.

(** ** Facts about the built-ins *)

Section Strings.

Lemma all_chars_impl (P Q : ascii -> bool) (s : string) :
  (forall c, P c = true -> Q c = true) ->
  all_chars P s = true -> all_chars Q s = true.
Proof.
  intros PQ. induction s as [| c r IH]; simpl; [reflexivity |].
  rewrite !andb_true_iff. intros [Hc Hr]. auto.
Qed.

Lemma all_chars_app (P : ascii -> bool) (s t : string) :
  all_chars P (s ++ t) = all_chars P s && all_chars P t.
Proof.
  induction s as [| c r IH]; simpl; [reflexivity |].
  now rewrite IH, andb_assoc.
Qed.

Lemma lstrip_all_chars (P : ascii -> bool) (s : string) :
  all_chars P s = true -> all_chars P (Py.lstrip s) = true.
Proof.
  induction s as [| c r IH]; simpl; [reflexivity |].
  rewrite andb_true_iff. intros [Hc Hr].
  destruct (Py.is_space c); [auto | simpl; now rewrite Hc, Hr].
Qed.

Lemma rstrip_all_chars (P : ascii -> bool) (s : string) :
  all_chars P s = true -> all_chars P (Py.rstrip s) = true.
Proof.
  induction s as [| c r IH]; simpl; [reflexivity |].
  rewrite andb_true_iff. intros [Hc Hr]. specialize (IH Hr).
  destruct (Py.rstrip r) as [| c' r'].
  - destruct (Py.is_space c); simpl; [reflexivity | now rewrite Hc].
  - change (P c && all_chars P (String c' r') = true). now rewrite Hc, IH.
Qed.

Lemma strip_all_chars (P : ascii -> bool) (s : string) :
  all_chars P s = true -> all_chars P (Py.strip s) = true.
Proof. intros H. apply rstrip_all_chars, lstrip_all_chars, H. Qed.

(** What stripping removes is white space. *)
Lemma lstrip_all_chars_inv (P : ascii -> bool) (s : string) :
  (forall c, Py.is_space c = true -> P c = true) ->
  all_chars P (Py.lstrip s) = true -> all_chars P s = true.
Proof.
  intros SP. induction s as [| c r IH]; simpl; [reflexivity |].
  destruct (Py.is_space c) eqn:E.
  - intros H. now rewrite (SP c E), (IH H).
  - simpl. auto.
Qed.

Lemma rstrip_all_chars_inv (P : ascii -> bool) (s : string) :
  (forall c, Py.is_space c = true -> P c = true) ->
  all_chars P (Py.rstrip s) = true -> all_chars P s = true.
Proof.
  intros SP. induction s as [| c r IH]; simpl; [reflexivity |].
  destruct (Py.rstrip r) as [| c' r'].
  - destruct (Py.is_space c) eqn:E.
    + intros _. rewrite (SP c E). now apply IH.
    + simpl. rewrite andb_true_r. intros ->. now apply IH.
  - change (all_chars P (String c (String c' r')))
      with (P c && all_chars P (String c' r')).
    rewrite !andb_true_iff. intros [Hc Hr]. auto.
Qed.

Lemma strip_all_chars_inv (P : ascii -> bool) (s : string) :
  (forall c, Py.is_space c = true -> P c = true) ->
  all_chars P (Py.strip s) = true -> all_chars P s = true.
Proof.
  intros SP H. apply lstrip_all_chars_inv; [exact SP |].
  apply rstrip_all_chars_inv; [exact SP | exact H].
Qed.

(** A text without white space is left as it is. *)
Lemma lstrip_no_space (s : string) :
  all_chars (fun c => negb (Py.is_space c)) s = true -> Py.lstrip s = s.
Proof.
  destruct s as [| c r]; simpl; [reflexivity |].
  rewrite andb_true_iff, negb_true_iff. now intros [-> _].
Qed.

Lemma rstrip_no_space (s : string) :
  all_chars (fun c => negb (Py.is_space c)) s = true -> Py.rstrip s = s.
Proof.
  induction s as [| c r IH]; simpl; [reflexivity |].
  rewrite andb_true_iff, negb_true_iff. intros [Hc Hr].
  rewrite (IH Hr), Hc. now destruct r.
Qed.

Lemma strip_no_space (s : string) :
  all_chars (fun c => negb (Py.is_space c)) s = true -> Py.strip s = s.
Proof.
  intros H. unfold Py.strip. rewrite (lstrip_no_space _ H). now apply rstrip_no_space.
Qed.

End Strings.

Section Numerals.

(** The two nested matches of [literal_digits] and [int], with the
    character tests written as boolean equalities. *)
Lemma literal_digits_cons (c : ascii) (r : string) :
  Py.literal_digits (String c r) =
  match Py.digit_of c with
  | None => None
  | Some D =>
      match r with
      | EmptyString => Some (D Nil)
      | String c' r' =>
          option_map D (Py.literal_digits (if Ascii.eqb c' "_" then r' else r))
      end
  end.
Proof.
  simpl. destruct (Py.digit_of c); [| reflexivity].
  destruct r as [| c' r']; [reflexivity |].
  destruct c' as [[|] [|] [|] [|] [|] [|] [|] [|]]; reflexivity.
Qed.

Lemma int_unfold (s : string) :
  Py.int s =
  match Py.strip s with
  | EmptyString => Py.int_of_body false EmptyString
  | String c r =>
      if Ascii.eqb c "+" then Py.int_of_body false r
      else if Ascii.eqb c "-" then Py.int_of_body true r
      else Py.int_of_body false (String c r)
  end.
Proof.
  unfold Py.int. destruct (Py.strip s) as [| c r]; [reflexivity |].
  destruct c as [[|] [|] [|] [|] [|] [|] [|] [|]]; reflexivity.
Qed.

Lemma is_digit_cases (c : ascii) :
  is_digit c = true ->
  Py.is_space c = false /\ Ascii.eqb c "_" = false /\
  Ascii.eqb c "+" = false /\ Ascii.eqb c "-" = false /\ Ascii.eqb c "." = false.
Proof.
  destruct c as [[|] [|] [|] [|] [|] [|] [|] [|]]; vm_compute; intros H;
    try discriminate H; repeat split.
Qed.

Lemma space_cases (c : ascii) :
  Py.is_space c = true ->
  Ascii.eqb c "-" = false /\ Ascii.eqb c "." = false.
Proof.
  destruct c as [[|] [|] [|] [|] [|] [|] [|] [|]]; vm_compute; intros H;
    try discriminate H; repeat split.
Qed.

(** The digits [str] writes. *)
Lemma string_of_uint_digits (d : uint) :
  all_chars is_digit (NilEmpty.string_of_uint d) = true.
Proof. induction d; simpl; auto. Qed.

Lemma string_of_uint_empty (d : uint) :
  NilEmpty.string_of_uint d = EmptyString -> d = Nil.
Proof. destruct d; simpl; intros H; [reflexivity | discriminate H ..]. Qed.

(** [literal_digits] reads back the digits of a numeral. *)
Lemma literal_digits_string_of_uint (d : uint) :
  d <> Nil -> Py.literal_digits (NilEmpty.string_of_uint d) = Some d.
Proof.
  induction d as [| d IH | d IH | d IH | d IH | d IH | d IH | d IH | d IH | d IH | d IH];
    intros N; [now destruct N | ..];
    cbn [NilEmpty.string_of_uint]; rewrite literal_digits_cons; cbn [Py.digit_of];
    pose proof (string_of_uint_digits d) as Hd;
    (destruct (NilEmpty.string_of_uint d) as [| c' r'] eqn:E;
     [ now rewrite (string_of_uint_empty d E)
     | assert (Hc : is_digit c' = true)
         by (simpl in Hd; now apply andb_true_iff in Hd as [? _]);
       destruct (is_digit_cases c' Hc) as (_ & -> & _);
       rewrite IH by (intros ->; discriminate E); reflexivity ]).
Qed.

(** A text of digits is read as [NilEmpty.uint_of_string] reads it. *)
Lemma literal_digits_plain (s : string) :
  all_chars is_digit s = true -> s <> EmptyString ->
  exists d, Py.literal_digits s = Some d /\ NilEmpty.string_of_uint d = s /\ d <> Nil.
Proof.
  induction s as [| c r IH]; intros H N; [now destruct N |].
  simpl in H. apply andb_true_iff in H as [Hc Hr].
  rewrite literal_digits_cons.
  unfold is_digit in Hc. destruct (Py.digit_of c) as [D |] eqn:ED; [| discriminate Hc].
  assert (HD : NilEmpty.string_of_uint (D Nil) = String c EmptyString /\
               (forall d, NilEmpty.string_of_uint (D d) = String c (NilEmpty.string_of_uint d)) /\
               (forall d, D d <> Nil)).
  { destruct c as [[|] [|] [|] [|] [|] [|] [|] [|]]; cbv in ED; try discriminate ED;
      injection ED as <-; repeat split; discriminate. }
  destruct HD as (H1 & H2 & H3).
  destruct r as [| c' r'].
  - exists (D Nil). auto.
  - assert (Hc' : is_digit c' = true) by (simpl in Hr; now apply andb_true_iff in Hr as [? _]).
    destruct (is_digit_cases c' Hc') as (_ & -> & _).
    destruct (IH Hr) as (d & Hd & Hs & _); [discriminate |].
    exists (D d). rewrite Hd. simpl. rewrite H2, Hs. auto.
Qed.

(** Every character [literal_digits] accepts is a digit or an underscore. *)
Lemma literal_digits_chars (s : string) :
  forall d, Py.literal_digits s = Some d ->
  all_chars (fun c => is_digit c || Ascii.eqb c "_") s = true.
Proof.
  assert (G : forall n s, (String.length s <= n)%nat ->
            forall d, Py.literal_digits s = Some d ->
            all_chars (fun c => is_digit c || Ascii.eqb c "_") s = true).
  { clear s. induction n as [| n IH]; intros s L d H.
    - destruct s; [discriminate H | simpl in L; lia].
    - destruct s as [| c r]; [reflexivity |].
      rewrite literal_digits_cons in H. simpl in L.
      cbn [all_chars]. unfold is_digit at 1.
      destruct (Py.digit_of c) as [D |]; [| discriminate H]. simpl.
      destruct r as [| c' r']; [reflexivity |].
      destruct (Py.literal_digits (if Ascii.eqb c' "_" then r' else String c' r')) as [d' |] eqn:E;
        [| discriminate H].
      destruct (Ascii.eqb c' "_") eqn:U.
      + cbn [all_chars]. rewrite U, orb_true_r. simpl.
        apply (IH r' ltac:(simpl in L; lia) d' E).
      + apply (IH (String c' r') ltac:(simpl in *; lia) d' E). }
  intros d. apply (G (String.length s) s). lia.
Qed.

End Numerals.

Section IntStr.

Lemma digits_no_space (s : string) :
  all_chars is_digit s = true -> all_chars (fun c => negb (Py.is_space c)) s = true.
Proof.
  apply all_chars_impl. intros c H.
  destruct (is_digit_cases c H) as (-> & _). reflexivity.
Qed.

(** [int] on a numeral without sign, and on one with a minus sign. *)
Lemma int_of_digits (d : uint) :
  d <> Nil -> Py.int (NilEmpty.string_of_uint d) = inr (Z.of_uint d).
Proof.
  intros N. rewrite int_unfold.
  rewrite (strip_no_space _ (digits_no_space _ (string_of_uint_digits d))).
  pose proof (string_of_uint_digits d) as Hd.
  pose proof (literal_digits_string_of_uint d N) as Hl.
  destruct (NilEmpty.string_of_uint d) as [| c r] eqn:E.
  - now destruct N; apply string_of_uint_empty.
  - simpl in Hd. apply andb_true_iff in Hd as [Hc _].
    destruct (is_digit_cases c Hc) as (_ & _ & -> & -> & _).
    unfold Py.int_of_body. now rewrite Hl.
Qed.

Lemma int_of_minus_digits (d : uint) :
  d <> Nil -> Py.int (String "-" (NilEmpty.string_of_uint d)) = inr (- Z.of_uint d).
Proof.
  intros N. rewrite int_unfold.
  rewrite strip_no_space
    by (simpl; apply digits_no_space, string_of_uint_digits).
  simpl. unfold Py.int_of_body.
  now rewrite (literal_digits_string_of_uint d N).
Qed.

Lemma str_pos (p : positive) :
  Py.str (Zpos p) = NilEmpty.string_of_uint (Pos.to_uint p).
Proof.
  unfold Py.str. simpl. pose proof (DecimalPos.Unsigned.to_uint_nonnil p) as N.
  now destruct (Pos.to_uint p).
Qed.

Lemma str_neg (p : positive) :
  Py.str (Zneg p) = String "-" (NilEmpty.string_of_uint (Pos.to_uint p)).
Proof.
  unfold Py.str. simpl. pose proof (DecimalPos.Unsigned.to_uint_nonnil p) as N.
  now destruct (Pos.to_uint p).
Qed.

(** [int(str(n)) == n] for every integer. *)
Lemma int_str (z : Z) : Py.int (Py.str z) = inr z.
Proof.
  destruct z as [| p | p].
  - reflexivity.
  - rewrite str_pos, int_of_digits by apply DecimalPos.Unsigned.to_uint_nonnil.
    f_equal. exact (DecimalZ.of_to (Zpos p)).
  - rewrite str_neg, int_of_minus_digits by apply DecimalPos.Unsigned.to_uint_nonnil.
    f_equal. exact (DecimalZ.of_to (Zneg p)).
Qed.

(** [str] writes digits, after a minus sign for a negative number. *)
Lemma str_chars (z : Z) :
  all_chars (fun c => is_digit c || Ascii.eqb c "-") (Py.str z) = true.
Proof.
  assert (D : forall d, all_chars (fun c => is_digit c || Ascii.eqb c "-")
                (NilEmpty.string_of_uint d) = true).
  { intros d. apply (all_chars_impl is_digit); [| apply string_of_uint_digits].
    now intros c ->. }
  destruct z as [| p | p].
  - reflexivity.
  - rewrite str_pos. apply D.
  - rewrite str_neg. simpl. apply D.
Qed.

Lemma digit_or_mark_not_dot (m c : ascii) :
  Ascii.eqb m "." = false ->
  is_digit c || Ascii.eqb c m = true -> differs_from "." c = true.
Proof.
  intros Hm H. unfold differs_from. apply orb_true_iff in H as [H | H].
  - destruct (is_digit_cases c H) as (_ & _ & _ & _ & ->). reflexivity.
  - apply Ascii.eqb_eq in H as ->. now rewrite Hm.
Qed.

Lemma str_no_dot (z : Z) : all_chars (differs_from ".") (Py.str z) = true.
Proof.
  apply (all_chars_impl (fun c => is_digit c || Ascii.eqb c "-")); [| apply str_chars].
  intros c. now apply digit_or_mark_not_dot.
Qed.

(** Only [ValueError] comes out of [int]. *)
Lemma int_raises (s : string) (e : exception) :
  Py.int s = inl e -> e = ValueError "invalid literal for int() with base 10".
Proof.
  rewrite int_unfold. unfold Py.int_of_body.
  destruct (Py.strip s) as [| c r].
  - simpl. now intros [= <-].
  - destruct (Ascii.eqb c "+"); [| destruct (Ascii.eqb c "-")];
      match goal with |- context [Py.literal_digits ?b] =>
        destruct (Py.literal_digits b) end;
      now intros [= <-].
Qed.

(** A text [int] accepts holds no dot. *)
Lemma int_no_dot (s : string) (z : Z) :
  Py.int s = inr z -> all_chars (differs_from ".") s = true.
Proof.
  rewrite int_unfold. unfold Py.int_of_body. intros H.
  apply strip_all_chars_inv.
  { intros c Hc. unfold differs_from. now destruct (space_cases c Hc) as (_ & ->). }
  assert (B : forall b, Py.literal_digits b <> None ->
              all_chars (differs_from ".") b = true).
  { intros b Hb. destruct (Py.literal_digits b) as [d |] eqn:E; [| now destruct Hb].
    apply (all_chars_impl (fun c => is_digit c || Ascii.eqb c "_"));
      [| exact (literal_digits_chars b d E)].
    intros c. now apply digit_or_mark_not_dot. }
  destruct (Py.strip s) as [| c r]; [reflexivity |].
  destruct (Ascii.eqb c "+") eqn:Eplus; [| destruct (Ascii.eqb c "-") eqn:Eminus].
  - apply Ascii.eqb_eq in Eplus as ->. simpl. apply B.
    destruct (Py.literal_digits r); [discriminate | discriminate H].
  - apply Ascii.eqb_eq in Eminus as ->. simpl. apply B.
    destruct (Py.literal_digits r); [discriminate | discriminate H].
  - apply B. destruct (Py.literal_digits (String c r)); [discriminate | discriminate H].
Qed.

(** Without a minus sign in the text, [int] returns no negative number. *)
Lemma int_nonneg (s : string) (z : Z) :
  Py.int s = inr z -> all_chars (differs_from "-") s = true -> 0 <= z.
Proof.
  rewrite int_unfold. unfold Py.int_of_body. intros H M.
  apply strip_all_chars in M.
  assert (P : forall d, 0 <= Z.of_uint d).
  { intros d. unfold Z.of_uint. apply N2Z.is_nonneg. }
  destruct (Py.strip s) as [| c r].
  - discriminate H.
  - simpl in M. apply andb_true_iff in M as [Mc _].
    unfold differs_from in Mc. apply negb_true_iff in Mc. rewrite Mc in H.
    destruct (Ascii.eqb c "+");
      match type of H with context [Py.literal_digits ?b] =>
        destruct (Py.literal_digits b) end;
      try discriminate H; injection H as <-; apply P.
Qed.

End IntStr.

Section Canonical.

Lemma canonical_numeral_unfold (s : string) :
  canonical_numeral s =
  match s with
  | EmptyString => false
  | String c r =>
      if Ascii.eqb c "-" then canonical_unsigned r && negb (String.eqb r "0")
      else canonical_unsigned s
  end.
Proof.
  destruct s as [| c r]; [reflexivity |].
  destruct c as [[|] [|] [|] [|] [|] [|] [|] [|]]; reflexivity.
Qed.

Lemma nzhead_of_head (d : uint) (c : ascii) (r : string) :
  NilEmpty.string_of_uint d = String c r -> Ascii.eqb c "0" = false -> nzhead d = d.
Proof.
  destruct d; simpl; intros H; try discriminate H;
    injection H as <- <-; intros E; try reflexivity; discriminate E.
Qed.

Lemma head_of_nzhead (d : uint) :
  nzhead d = d -> d <> Nil ->
  exists c r, NilEmpty.string_of_uint d = String c r /\ Ascii.eqb c "0" = false.
Proof.
  destruct d; intros H N; try (simpl; eexists _, _; split; reflexivity).
  - now destruct N.
  - rewrite nzhead_D0 in H. now destruct (nzhead_nonzero _ _ H).
Qed.

Lemma unorm_of_nzhead (d : uint) : nzhead d = d -> d <> Nil -> unorm d = d.
Proof. intros H N. unfold unorm. rewrite H. now destruct d. Qed.

Lemma to_uint_nzhead (p : positive) : nzhead (Pos.to_uint p) = Pos.to_uint p.
Proof.
  pose proof (DecimalPos.Unsigned.to_of (Pos.to_uint p)) as H.
  rewrite DecimalPos.Unsigned.of_to in H. simpl in H.
  pose proof (DecimalPos.Unsigned.to_uint_nonzero p) as Z0.
  unfold unorm in H. destruct (nzhead (Pos.to_uint p)) eqn:E;
    [now destruct Z0 | ..]; now rewrite <- E in H |- *.
Qed.

(** A canonical unsigned numeral is the image of a normal digit list. *)
Lemma canonical_unsigned_uint (s : string) :
  canonical_unsigned s = true ->
  exists d, NilEmpty.string_of_uint d = s /\ d <> Nil /\ unorm d = d /\
            (String.eqb s "0" = false -> nzhead d = d).
Proof.
  destruct s as [| c r]; [discriminate |].
  unfold canonical_unsigned. rewrite andb_true_iff. intros [D H].
  destruct (literal_digits_plain _ D) as (d & _ & Hs & N); [discriminate |].
  exists d. split; [exact Hs |]. split; [exact N |].
  unfold differs_from in H. apply orb_true_iff in H as [H | H].
  - apply negb_true_iff in H. pose proof (nzhead_of_head d c r Hs H) as NZ.
    split; [now apply unorm_of_nzhead | auto].
  - apply String.eqb_eq in H as ->.
    destruct (Ascii.eqb c "0") eqn:E.
    + apply Ascii.eqb_eq in E as ->. split; [| discriminate].
      destruct d; try discriminate Hs. simpl in Hs. injection Hs as Hs.
      now rewrite (string_of_uint_empty _ Hs).
    + pose proof (nzhead_of_head d c _ Hs E) as NZ.
      split; [now apply unorm_of_nzhead | auto].
Qed.

(** [str(int(s)) == s] for a canonical numeral. *)
Lemma str_int_canonical (s : string) :
  canonical_numeral s = true -> exists z, Py.int s = inr z /\ Py.str z = s.
Proof.
  rewrite canonical_numeral_unfold. destruct s as [| c r]; [discriminate |].
  destruct (Ascii.eqb c "-") eqn:M.
  - apply Ascii.eqb_eq in M as ->. rewrite andb_true_iff, negb_true_iff.
    intros [C Z0]. destruct (canonical_unsigned_uint r C) as (d & <- & N & _ & NZ).
    specialize (NZ Z0). exists (- Z.of_uint d). split; [now apply int_of_minus_digits |].
    unfold Py.str. change (- Z.of_uint d) with (Z.of_int (Neg d)).
    rewrite DecimalZ.to_of. unfold norm. rewrite NZ.
    destruct d; [now destruct N | reflexivity ..].
  - intros C. destruct (canonical_unsigned_uint _ C) as (d & Hs & N & U & _).
    rewrite <- Hs. exists (Z.of_uint d). split; [now apply int_of_digits |].
    unfold Py.str. change (Z.of_uint d) with (Z.of_int (Pos d)).
    rewrite DecimalZ.to_of. unfold norm. rewrite U.
    destruct d; [now destruct N | reflexivity ..].
Qed.

(** What [str] writes is canonical. *)
Lemma str_canonical (z : Z) : canonical_numeral (Py.str z) = true.
Proof.
  assert (U : forall p, exists c r,
            NilEmpty.string_of_uint (Pos.to_uint p) = String c r /\
            Ascii.eqb c "0" = false /\ canonical_unsigned (String c r) = true).
  { intros p.
    destruct (head_of_nzhead _ (to_uint_nzhead p) (DecimalPos.Unsigned.to_uint_nonnil p))
      as (c & r & E & H0).
    exists c, r. repeat split; [exact E | exact H0 |].
    unfold canonical_unsigned, differs_from.
    rewrite <- E, string_of_uint_digits, H0. reflexivity. }
  rewrite canonical_numeral_unfold.
  destruct z as [| p | p].
  - reflexivity.
  - rewrite str_pos. destruct (U p) as (c & r & -> & H0 & C).
    pose proof (string_of_uint_digits (Pos.to_uint p)) as D.
    destruct (Ascii.eqb c "-") eqn:M; [| exact C].
    apply Ascii.eqb_eq in M as ->.
    unfold canonical_unsigned in C. simpl in C. discriminate C.
  - rewrite str_neg. simpl. destruct (U p) as (c & r & -> & H0 & C).
    rewrite C. simpl.
    destruct (Ascii.eqb_spec c "0") as [-> | NE]; [discriminate H0 |].
    destruct (String.eqb_spec (String c r) "0") as [E | _]; [| reflexivity].
    injection E as -> _. now destruct NE.
Qed.

End Canonical.

Section Split.

Variable sep : ascii.

Lemma differs_from_eqb (c : ascii) :
  differs_from sep c = true <-> Ascii.eqb c sep = false.
Proof. unfold differs_from. apply negb_true_iff. Qed.

Lemma split_zero (s : string) : Py.split sep 0 s = [s].
Proof. now destruct s. Qed.

(** A cut is made at the first separator. *)
Lemma split_app_sep (n : nat) (a r : string) :
  all_chars (differs_from sep) a = true ->
  Py.split sep (S n) (a ++ String sep r) = a :: Py.split sep n r.
Proof.
  induction a as [| c a IH]; simpl.
  - intros _. now rewrite Ascii.eqb_refl.
  - rewrite andb_true_iff, differs_from_eqb. intros [-> Ha].
    now rewrite (IH Ha).
Qed.

Lemma split_all_app_sep (a r : string) :
  all_chars (differs_from sep) a = true ->
  Py.split_all sep (a ++ String sep r) = a :: Py.split_all sep r.
Proof.
  induction a as [| c a IH]; simpl.
  - intros _. now rewrite Ascii.eqb_refl.
  - rewrite andb_true_iff, differs_from_eqb. intros [-> Ha].
    now rewrite (IH Ha).
Qed.

Lemma split_all_no_sep (s : string) :
  all_chars (differs_from sep) s = true -> Py.split_all sep s = [s].
Proof.
  induction s as [| c s IH]; simpl; [reflexivity |].
  rewrite andb_true_iff, differs_from_eqb. intros [-> Hs].
  now rewrite (IH Hs).
Qed.

Lemma split_all_nonempty (s : string) : Py.split_all sep s <> [].
Proof.
  destruct s as [| c s]; simpl; [discriminate |].
  destruct (Ascii.eqb c sep); [discriminate |].
  destruct (Py.split_all sep s); discriminate.
Qed.

(** The first piece ends at the first separator. *)
Lemma split_all_cons_inv (s x y : string) (t : list string) :
  Py.split_all sep s = x :: y :: t ->
  exists r, s = x ++ String sep r /\ Py.split_all sep r = y :: t /\
            all_chars (differs_from sep) x = true.
Proof.
  revert x. induction s as [| c s IH]; intros x; simpl; [discriminate |].
  destruct (Ascii.eqb_spec c sep) as [-> | NE].
  - intros [= <- E]. exists s. auto.
  - destruct (Py.split_all sep s) as [| h l] eqn:E; [discriminate |].
    intros [= <- ->]. destruct (IH h eq_refl) as (r & -> & Hr & Hx).
    exists r. repeat split; [exact Hr |]. simpl. rewrite Hx, andb_true_r.
    apply differs_from_eqb. now apply Ascii.eqb_neq.
Qed.

Lemma split_all_singleton (s x : string) :
  Py.split_all sep s = [x] -> x = s /\ all_chars (differs_from sep) s = true.
Proof.
  revert x. induction s as [| c s IH]; intros x; simpl.
  - now intros [= <-].
  - destruct (Ascii.eqb_spec c sep) as [-> | NE].
    + intros [= _ E]. now destruct (split_all_nonempty s).
    + destruct (Py.split_all sep s) as [| h l] eqn:E; [now destruct (split_all_nonempty s) |].
      intros [= <- ->]. destruct (IH h eq_refl) as [-> Hs].
      split; [reflexivity |]. rewrite Hs, andb_true_r.
      apply differs_from_eqb. now apply Ascii.eqb_neq.
Qed.

(** [split] with a bound makes the cuts of [split_all] up to the bound and
    leaves the rest of the text in its last piece. *)
Lemma split_decompose (n : nat) (s : string) :
  exists pre lst,
    Py.split sep n s = (pre ++ [lst])%list /\
    Py.split_all sep s = (pre ++ Py.split_all sep lst)%list /\
    (length pre <= n)%nat /\
    ((length pre < n)%nat -> all_chars (differs_from sep) lst = true).
Proof.
  revert n. induction s as [| c s IH]; intros n.
  - exists [], EmptyString. simpl. repeat split; lia.
  - destruct n as [| m].
    + exists [], (String c s). repeat split; simpl; lia.
    + simpl. destruct (Ascii.eqb c sep) eqn:E.
      * destruct (IH m) as (pre & lst & H1 & H2 & H3 & H4).
        exists (EmptyString :: pre), lst. rewrite H1, H2. simpl.
        repeat split; [lia |]. intros L. apply H4. lia.
      * destruct (IH (S m)) as (pre & lst & H1 & H2 & H3 & H4).
        rewrite H1, H2. destruct pre as [| h t]; simpl.
        -- exists [], (String c lst). simpl. rewrite E.
           repeat split; [lia |]. intros _.
           rewrite (proj2 (differs_from_eqb c) E). apply H4. simpl. lia.
        -- exists (String c h :: t), lst. simpl in *. repeat split; [lia |].
           intros L. apply H4. lia.
Qed.

(** The pieces of a text hold only characters of the text. *)
Lemma split_all_chars (P : ascii -> bool) (n : nat) (s : string) :
  all_chars P s = true ->
  Forall (fun t => all_chars P t = true) (Py.split sep n s).
Proof.
  revert n. induction s as [| c s IH]; intros n H.
  - simpl. auto.
  - destruct n as [| m]; [rewrite split_zero; auto |].
    simpl in H. apply andb_true_iff in H as [Hc Hs]. simpl.
    destruct (Ascii.eqb c sep).
    + constructor; [reflexivity | now apply IH].
    + specialize (IH (S m) Hs). destruct (Py.split sep (S m) s) as [| h t].
      * constructor; [simpl; now rewrite Hc | constructor].
      * inversion IH as [| ? ? Hh Ht]; subst. constructor; [| exact Ht].
        simpl. now rewrite Hc, Hh.
Qed.

End Split.

(** ** [Version.parse] and [Version.__str__] *)

Section VersionFacts.

Lemma str_unfold (v : Version) :
  Version.__str__ v =
  Py.str (major v) ++ String "." (Py.str (minor v) ++ String "." (Py.str (hotfix v))).
Proof. reflexivity. Qed.

Lemma parse_pieces (s a b c : string) (x y z : Z) :
  Py.split "." 2 s = [a; b; c] ->
  Py.int a = inr x -> Py.int b = inr y -> Py.int c = inr z ->
  Version.parse s = inr (mkVersion x y z).
Proof.
  intros Hs Ha Hb Hc. unfold Version.parse. rewrite Hs. simpl.
  now rewrite Ha, Hb, Hc.
Qed.

Lemma parse_inv (s : string) (v : Version) :
  Version.parse s = inr v ->
  exists a b c,
    Py.split "." 2 s = [a; b; c] /\
    Py.int a = inr (major v) /\ Py.int b = inr (minor v) /\ Py.int c = inr (hotfix v).
Proof.
  unfold Version.parse.
  destruct (Py.split "." 2 s) as [| a [| b [| c [| d t]]]]; simpl.
  - discriminate.
  - destruct (Py.int a); discriminate.
  - destruct (Py.int a); [discriminate |]. destruct (Py.int b); discriminate.
  - destruct (Py.int a) as [| x] eqn:Ha; [discriminate |].
    destruct (Py.int b) as [| y] eqn:Hb; [discriminate |].
    destruct (Py.int c) as [| z] eqn:Hc; [discriminate |].
    intros [= <-]. exists a, b, c. auto.
  - destruct (Py.int a); [discriminate |]. destruct (Py.int b); [discriminate |].
    destruct (Py.int c); [discriminate |]. destruct (Py.int d); [discriminate |].
    destruct (Py.map_raising Py.int t); discriminate.
Qed.

Lemma map_int_raises (l : list string) (e : exception) :
  Py.map_raising Py.int l = inl e -> is_FormatError e = true.
Proof.
  induction l as [| x l IH]; simpl; [discriminate |].
  destruct (Py.int x) eqn:E.
  - intros [= <-]. now rewrite (int_raises _ _ E).
  - destruct (Py.map_raising Py.int l); [| discriminate].
    intros [= <-]. now apply IH.
Qed.

(** Whatever [parse] raises is a format error. *)
Lemma parse_raises (s : string) (e : exception) :
  Version.parse s = inl e -> is_FormatError e = true.
Proof.
  unfold Version.parse.
  destruct (Py.map_raising Py.int (Py.split "." 2 s)) as [e' | l] eqn:E.
  - intros [= <-]. exact (map_int_raises _ _ E).
  - destruct l as [| a [| b [| c [| d t]]]]; intros [= <-]; reflexivity.
Qed.

(** [parse] accepts a text exactly when it has three components that
    [int] accepts. *)
Lemma parse_ok_three_components (s : string) (v : Version) :
  Version.parse s = inr v -> three_int_components s = true.
Proof.
  intros H. destruct (parse_inv s v H) as (a & b & c & Hs & Ha & Hb & Hc).
  destruct (split_decompose "." 2 s) as (pre & lst & H1 & H2 & _).
  rewrite Hs in H1.
  destruct pre as [| p1 [| p2 [| p3 t]]]; simpl in H1; try discriminate H1.
  - injection H1 as -> -> ->.
    unfold three_int_components. rewrite H2. simpl.
    rewrite (split_all_no_sep "." lst (int_no_dot lst _ Hc)).
    unfold int_parsable. now rewrite Ha, Hb, Hc.
  - injection H1 as _ _ _ H1. now destruct t.
Qed.

Lemma three_components_parse_ok (s : string) :
  three_int_components s = true -> exists v, Version.parse s = inr v.
Proof.
  unfold three_int_components.
  destruct (Py.split_all "." s) as [| a [| b [| c [| d t]]]] eqn:E; try discriminate.
  unfold int_parsable.
  destruct (Py.int a) as [| x] eqn:Ha; [discriminate |].
  destruct (Py.int b) as [| y] eqn:Hb; [discriminate |].
  destruct (Py.int c) as [| z] eqn:Hc; [discriminate |]. intros _.
  destruct (split_all_cons_inv "." s a b [c] E) as (r & -> & Er & Na).
  destruct (split_all_cons_inv "." r b c [] Er) as (r' & -> & Er' & Nb).
  destruct (split_all_singleton "." r' c Er') as [-> _].
  exists (mkVersion x y z). apply (parse_pieces _ a b r'); try assumption.
  now rewrite (split_app_sep "." 1 a _ Na), (split_app_sep "." 0 b _ Nb), split_zero.
Qed.

Lemma parse_str (v : Version) : Version.parse (Version.__str__ v) = inr v.
Proof.
  destruct v as [x y z].
  apply (parse_pieces _ (Py.str x) (Py.str y) (Py.str z)); try apply int_str.
  rewrite str_unfold. simpl.
  rewrite (split_app_sep "." 1 _ _ (str_no_dot x)).
  now rewrite (split_app_sep "." 0 _ _ (str_no_dot y)), split_zero.
Qed.

Lemma str_is_canonical (v : Version) : canonical_version_text (Version.__str__ v) = true.
Proof.
  destruct v as [x y z]. unfold canonical_version_text. rewrite str_unfold. simpl.
  rewrite (split_all_app_sep "." _ _ (str_no_dot x)).
  rewrite (split_all_app_sep "." _ _ (str_no_dot y)).
  rewrite (split_all_no_sep "." _ (str_no_dot z)).
  now rewrite !str_canonical.
Qed.

Lemma canonical_parse_str (s : string) :
  canonical_version_text s = true ->
  exists v, Version.parse s = inr v /\ Version.__str__ v = s.
Proof.
  unfold canonical_version_text.
  destruct (Py.split_all "." s) as [| a [| b [| c [| d t]]]] eqn:E; try discriminate.
  rewrite !andb_true_iff. intros [[Ca Cb] Cc].
  destruct (str_int_canonical a Ca) as (x & Ha & Sa).
  destruct (str_int_canonical b Cb) as (y & Hb & Sb).
  destruct (str_int_canonical c Cc) as (z & Hc & Sc).
  destruct (split_all_cons_inv "." s a b [c] E) as (r & -> & Er & Na).
  destruct (split_all_cons_inv "." r b c [] Er) as (r' & -> & Er' & Nb).
  destruct (split_all_singleton "." r' c Er') as [-> _].
  exists (mkVersion x y z). split.
  - apply (parse_pieces _ a b r'); try assumption.
    now rewrite (split_app_sep "." 1 a _ Na), (split_app_sep "." 0 b _ Nb), split_zero.
  - rewrite str_unfold. simpl. now rewrite Sa, Sb, Sc.
Qed.

(** C2 (as amended): [parse(str(v)) == v] for every version of three
    integers; and for a text [s] that [parse] accepts,
    [str(parse(s)) == s] holds exactly when [s] is canonical: three
    dot-joined decimal numerals without leading zeros, plus sign,
    underscores or surrounding white space, and without a negative zero. *)
Theorem parse_str_round_trip :
  (forall v, Version.parse (Version.__str__ v) = inr v) /\
  (forall s v, Version.parse s = inr v ->
     (Version.__str__ v = s <-> canonical_version_text s = true)).
Proof.
  split; [exact parse_str |].
  intros s v H. split.
  - intros <-. apply str_is_canonical.
  - intros C. destruct (canonical_parse_str s C) as (v' & H' & S).
    rewrite H in H'. now injection H' as ->.
Qed.

(** C3: a text that does not split at its dots into exactly three
    components that [int] accepts makes [parse] raise a format error. *)
Theorem parse_rejects_malformed (s : string) :
  three_int_components s = false ->
  exists e, Version.parse s = inl e /\ is_FormatError e = true.
Proof.
  intros W. destruct (Version.parse s) as [e | v] eqn:E.
  - exists e. split; [reflexivity | exact (parse_raises s e E)].
  - rewrite (parse_ok_three_components s v E) in W. discriminate W.
Qed.

(** C4 (as amended): a version [parse] returns comes from exactly three
    pieces of the text, and its three components are non-negative when
    the text holds no minus sign. *)
Theorem parse_components_nonneg (s : string) (v : Version) :
  Version.parse s = inr v ->
  all_chars (differs_from "-") s = true ->
  length (Py.split "." 2 s) = 3%nat /\
  0 <= major v /\ 0 <= minor v /\ 0 <= hotfix v.
Proof.
  intros H M. destruct (parse_inv s v H) as (a & b & c & Hs & Ha & Hb & Hc).
  pose proof (split_all_chars "." _ 2 s M) as F. rewrite Hs in F |- *.
  inversion F as [| ? ? Fa F1]; subst. inversion F1 as [| ? ? Fb F2]; subst.
  inversion F2 as [| ? ? Fc _]; subst.
  repeat split; eauto using int_nonneg.
Qed.

End VersionFacts.

Lemma parse_str_round_trip_witness :
  Version.parse (Version.__str__ (mkVersion 4 1 0)) = inr (mkVersion 4 1 0) /\
  (Version.__str__ (mkVersion 4 1 0) = "4.1.0" <-> canonical_version_text "4.1.0" = true).
Proof.
  split.
  - apply (proj1 parse_str_round_trip).
  - apply (proj2 parse_str_round_trip "4.1.0" (mkVersion 4 1 0)). reflexivity.
Defined.

(** C2 (counterexample to the property as the spec states it): [parse] accepts a
    component with a leading zero, and [str] does not write it back. *)
Lemma parse_str_drops_leading_zero :
  three_int_components "01.2.3" = true /\
  Version.parse "01.2.3" = inr (mkVersion 1 2 3) /\
  Version.__str__ (mkVersion 1 2 3) = "1.2.3" /\
  Version.__str__ (mkVersion 1 2 3) <> "01.2.3".
Proof. repeat split; try reflexivity. discriminate. Qed.

Lemma parse_rejects_malformed_witness :
  three_int_components "4.1" = false /\
  exists e, Version.parse "4.1" = inl e /\ is_FormatError e = true.
Proof.
  split; [reflexivity |]. apply (parse_rejects_malformed "4.1"). reflexivity.
Defined.

Lemma parse_components_nonneg_witness :
  length (Py.split "." 2 "4.1.0") = 3%nat /\
  0 <= major (mkVersion 4 1 0) /\ 0 <= minor (mkVersion 4 1 0) /\ 0 <= hotfix (mkVersion 4 1 0).
Proof.
  apply (parse_components_nonneg "4.1.0" (mkVersion 4 1 0)); reflexivity.
Defined.

(** C4 (counterexample to the property as the spec states it): a component written
    with a minus sign is parsed to a negative integer. *)
Lemma parse_accepts_negative_component :
  Version.parse "-1.2.3" = inr (mkVersion (-1) 2 3) /\
  major (mkVersion (-1) 2 3) < 0.
Proof. split; reflexivity. Qed.

(** ** The existence probe *)

Section Probe.

Variable w : world.

Lemma url_exists_log (url : string) (l : log) :
  snd (url_exists w url l) = Urlopen HEAD url :: l.
Proof.
  unfold url_exists; simpl.
  destruct (urlopen w l HEAD url) as [e | r]; simpl; [| reflexivity].
  destruct (isinstance_URLError e); reflexivity.
Qed.

Lemma url_exists_true_inv (url : string) (l l' : log) :
  url_exists w url l = (inr true, l') ->
  exists r, urlopen w l HEAD url = inr r.
Proof.
  unfold url_exists; simpl.
  destruct (urlopen w l HEAD url) as [e | r]; simpl.
  - destruct (isinstance_URLError e); discriminate.
  - eauto.
Qed.

Lemma url_exists_false_inv (url : string) (l l' : log) :
  url_exists w url l = (inr false, l') ->
  exists e, urlopen w l HEAD url = inl e /\ isinstance_URLError e = true.
Proof.
  unfold url_exists; simpl.
  destruct (urlopen w l HEAD url) as [e | r]; simpl.
  - destruct (isinstance_URLError e) eqn:E; [eauto | discriminate].
  - discriminate.
Qed.

(** C9 (as amended): the probe answers true exactly when [urlopen] returns
    a response, answers false when [urlopen] raises [URLError] (an HTTP
    error status is its subclass [HTTPError]), and lets every other
    exception through to the caller. *)
Theorem url_exists_outcomes (url : string) (l : log) :
  (forall r, urlopen w l HEAD url = inr r ->
     url_exists w url l = (inr true, Urlopen HEAD url :: l)) /\
  (forall e, urlopen w l HEAD url = inl e -> isinstance_URLError e = true ->
     url_exists w url l = (inr false, Urlopen HEAD url :: l)) /\
  (forall e, urlopen w l HEAD url = inl e -> isinstance_URLError e = false ->
     url_exists w url l = (inl e, Urlopen HEAD url :: l)) /\
  (forall l', url_exists w url l = (inr true, l') ->
     exists r, urlopen w l HEAD url = inr r).
Proof.
  repeat split.
  - intros r H. unfold url_exists; simpl. now rewrite H.
  - intros e H E. unfold url_exists; simpl. now rewrite H, E.
  - intros e H E. unfold url_exists; simpl. now rewrite H, E.
  - intros l'. apply url_exists_true_inv.
Qed.

End Probe.

Lemma url_exists_outcomes_witness :
  url_exists Samples.online "https://cdn.crate.io/downloads/releases/crate-4.1.0.tar.gz" [] =
    (inr true, [Urlopen HEAD "https://cdn.crate.io/downloads/releases/crate-4.1.0.tar.gz"]) /\
  url_exists Samples.nothing_released "https://cdn.crate.io/downloads/releases/crate-9.9.9.tar.gz" [] =
    (inr false, [Urlopen HEAD "https://cdn.crate.io/downloads/releases/crate-9.9.9.tar.gz"]).
Proof.
  split.
  - apply (proj1 (url_exists_outcomes Samples.online _ []) Samples.good_response).
    reflexivity.
  - apply (proj1 (proj2 (url_exists_outcomes Samples.nothing_released _ [])) (HTTPError 404));
      reflexivity.
Defined.

(** C9 (counterexample to the property as the spec states it): when the server
    closes the connection without an answer, the probe neither answers
    true nor false: the exception reaches the caller. *)
Lemma url_exists_lets_disconnect_through :
  url_exists Samples.disconnecting "https://cdn.crate.io/downloads/releases/crate-4.1.0.tar.gz" [] =
    (inl (OtherException "http.client.RemoteDisconnected"),
     [Urlopen HEAD "https://cdn.crate.io/downloads/releases/crate-4.1.0.tar.gz"]) /\
  isinstance_URLError (OtherException "http.client.RemoteDisconnected") = false.
Proof. split; reflexivity. Qed.

(** ** Resolution of the three versions *)

Section Resolution.

Variable w : world.

(** C1: with no JDK version given, the resolved one is 12.0.1 for a
    database major version of at least 4 and 11.0.1 below 4; a JDK version
    given by the caller is used as it is. *)
Theorem jdk_version_resolution (a : args) (cratedb : Version) :
  (jdk_version a = None -> 4 <= major cratedb ->
     resolve_jdk_version a cratedb = mkVersion 12 0 1) /\
  (jdk_version a = None -> major cratedb < 4 ->
     resolve_jdk_version a cratedb = mkVersion 11 0 1) /\
  (forall v, jdk_version a = Some v -> resolve_jdk_version a cratedb = v).
Proof.
  unfold resolve_jdk_version, jdk_version_default.
  repeat split.
  - intros -> H. destruct (Z.geb_spec (major cratedb) 4); [reflexivity | lia].
  - intros -> H. destruct (Z.geb_spec (major cratedb) 4); [lia | reflexivity].
  - intros v ->. reflexivity.
Qed.

Lemma jdk_url_and_sha_found (v : Version) (url : string) (l : log) :
  JDK_URLS !! Version.astuple v = Some url ->
  jdk_url_and_sha w v l =
    (match urlopen w l GET (url ++ ".sha256") with
     | inr r => match read_decode_utf8 r with
                | inr sha256 => inr (url, sha256)
                | inl e => inl e
                end
     | inl e => inl e
     end,
     Urlopen GET (url ++ ".sha256") :: l).
Proof.
  intros H. unfold jdk_url_and_sha. rewrite H. simpl.
  destruct (urlopen w l GET _) as [e | r]; [reflexivity |].
  destruct (read_decode_utf8 r); reflexivity.
Qed.

Lemma jdk_url_and_sha_missing (v : Version) (l : log) :
  JDK_URLS !! Version.astuple v = None ->
  jdk_url_and_sha w v l =
    (inl (ValueError ("No URL for JDK version " ++ Version.__str__ v ++ " found.")), l).
Proof. intros H. unfold jdk_url_and_sha. now rewrite H. Qed.

Lemma ensure_existing_cratedb_found (v : Version) (l l' : log) :
  url_exists w (cratedb_url v) l = (inr true, l') ->
  ensure_existing_cratedb w v l = (inr v, l').
Proof. intros H. unfold ensure_existing_cratedb; simpl. now rewrite H. Qed.

Lemma ensure_existing_cratedb_missing (v : Version) (l l' : log) :
  url_exists w (cratedb_url v) l = (inr false, l') ->
  ensure_existing_cratedb w v l =
    (inl (ValueError ("No release found for CrateDB " ++ Version.__str__ v)), l').
Proof. intros H. unfold ensure_existing_cratedb; simpl. now rewrite H. Qed.

(** C5: a JDK version given by the caller that is no key of [JDK_URLS]
    makes [jdk_url_and_sha] raise the script's not-found error, whose
    message carries the version; nothing outside is consulted for it (the
    log is left as it was), and [main] ends with this error once the
    database release has been found. *)
Theorem unknown_jdk_version_raises (a : args) (v : Version) (l : log) :
  jdk_version a = Some v ->
  JDK_URLS !! Version.astuple v = None ->
  jdk_url_and_sha w (resolve_jdk_version a (cratedb_version a)) l =
    (inl (ValueError ("No URL for JDK version " ++ Version.__str__ v ++ " found.")), l) /\
  (forall l', url_exists w (cratedb_url (cratedb_version a)) l = (inr true, l') ->
     main w a l =
       (inl (ValueError ("No URL for JDK version " ++ Version.__str__ v ++ " found.")), l')).
Proof.
  intros Ha Hv.
  assert (R : resolve_jdk_version a (cratedb_version a) = v)
    by (unfold resolve_jdk_version; now rewrite Ha).
  split.
  - rewrite R. now apply jdk_url_and_sha_missing.
  - intros l' H. unfold main. simpl.
    rewrite (ensure_existing_cratedb_found _ _ _ H), R.
    now rewrite jdk_url_and_sha_missing.
Qed.

(** C6: when the probe of the release archive answers false,
    [ensure_existing_cratedb] raises the not-found error naming the
    version, and [main] ends with it after this one HEAD request: no
    template is loaded, nothing is rendered or printed. *)
Theorem missing_cratedb_stops_main (a : args) (l l' : log) :
  url_exists w (cratedb_url (cratedb_version a)) l = (inr false, l') ->
  ensure_existing_cratedb w (cratedb_version a) l =
    (inl (ValueError ("No release found for CrateDB " ++ Version.__str__ (cratedb_version a))), l') /\
  main w a l =
    (inl (ValueError ("No release found for CrateDB " ++ Version.__str__ (cratedb_version a))), l') /\
  l' = Urlopen HEAD (cratedb_url (cratedb_version a)) :: l.
Proof.
  intros H. repeat split.
  - now apply ensure_existing_cratedb_missing.
  - unfold main. simpl. now rewrite (ensure_existing_cratedb_missing _ _ _ H).
  - rewrite <- (url_exists_log w (cratedb_url (cratedb_version a)) l). now rewrite H.
Qed.

(** C7: with no client version given, the result is the version parsed
    from the field of the metadata document that names the latest client
    release (key [crash] of [versions.json]), after one GET and no
    existence probe; a client version that is given is returned as it is
    when the probe of its artifact answers true, and the not-found error
    is raised when the probe answers false. *)
Theorem crash_version_resolution (l : log) :
  (forall r fields s,
     urlopen w l GET "https://crate.io/versions.json" = inr r ->
     json_load r = inr (JDict fields) ->
     fields !! "crash" = Some (JStr s) ->
     ensure_existing_crash w None l =
       (Version.parse s, Urlopen GET "https://crate.io/versions.json" :: l)) /\
  (forall v l', url_exists w (crash_url v) l = (inr true, l') ->
     ensure_existing_crash w (Some v) l = (inr v, l')) /\
  (forall v l', url_exists w (crash_url v) l = (inr false, l') ->
     ensure_existing_crash w (Some v) l =
       (inl (ValueError ("No release found for crash " ++ Version.__str__ v)), l')).
Proof.
  repeat split.
  - intros r fields s Hr Hd Hs.
    unfold ensure_existing_crash, latest_crash. simpl.
    rewrite Hr, Hd. simpl. rewrite Hs. reflexivity.
  - intros v l' H. unfold ensure_existing_crash. simpl. now rewrite H.
  - intros v l' H. unfold ensure_existing_crash. simpl. now rewrite H.
Qed.

Lemma ensure_existing_cratedb_inv (v v' : Version) (l l' : log) :
  ensure_existing_cratedb w v l = (inr v', l') ->
  v' = v /\ url_exists w (cratedb_url v) l = (inr true, l').
Proof.
  unfold ensure_existing_cratedb. simpl.
  destruct (url_exists w (cratedb_url v) l) as [[e | [|]] l1]; simpl;
    intros [= <- <-] || intros [=]; auto.
Qed.

(** C10: both default JDK versions, 12.0.1 and 11.0.1, are keys of
    [JDK_URLS]; so with no JDK version given, whatever the database
    version, [jdk_url_and_sha] does not take its raising branch: it goes
    on to request the checksum of the URL it found. *)
Theorem default_jdk_version_has_url (a : args) (cratedb : Version) (l : log) :
  jdk_version a = None ->
  is_Some (JDK_URLS !! (12, 0, 1)) /\
  is_Some (JDK_URLS !! (11, 0, 1)) /\
  exists url,
    JDK_URLS !! Version.astuple (resolve_jdk_version a cratedb) = Some url /\
    jdk_url_and_sha w (resolve_jdk_version a cratedb) l =
      (match urlopen w l GET (url ++ ".sha256") with
       | inr r => match read_decode_utf8 r with
                  | inr sha256 => inr (url, sha256)
                  | inl e => inl e
                  end
       | inl e => inl e
       end,
       Urlopen GET (url ++ ".sha256") :: l).
Proof.
  intros Ha.
  assert (K12 : is_Some (JDK_URLS !! (12, 0, 1))) by (eexists; vm_compute; reflexivity).
  assert (K11 : is_Some (JDK_URLS !! (11, 0, 1))) by (eexists; vm_compute; reflexivity).
  repeat split; [exact K12 | exact K11 |].
  assert (K : exists url, JDK_URLS !! Version.astuple (resolve_jdk_version a cratedb) = Some url).
  { unfold resolve_jdk_version, jdk_version_default. rewrite Ha.
    destruct (major cratedb >=? 4)%Z; [destruct K12 as [u K] | destruct K11 as [u K]];
      exists u; exact K. }
  destruct K as [url K]. exists url. split; [exact K |].
  now apply jdk_url_and_sha_found.
Qed.

End Resolution.

Lemma jdk_version_resolution_witness :
  resolve_jdk_version (Samples.only_cratedb (mkVersion 4 1 0)) (mkVersion 4 1 0) = mkVersion 12 0 1 /\
  resolve_jdk_version (Samples.only_cratedb (mkVersion 3 3 4)) (mkVersion 3 3 4) = mkVersion 11 0 1 /\
  resolve_jdk_version (Samples.with_jdk (mkVersion 3 3 4) (mkVersion 12 0 1)) (mkVersion 3 3 4) = mkVersion 12 0 1.
Proof.
  split; [| split].
  - apply (proj1 (jdk_version_resolution (Samples.only_cratedb (mkVersion 4 1 0)) (mkVersion 4 1 0)));
      [reflexivity | simpl; lia].
  - apply (proj1 (proj2 (jdk_version_resolution (Samples.only_cratedb (mkVersion 3 3 4)) (mkVersion 3 3 4))));
      [reflexivity | simpl; lia].
  - apply (proj2 (proj2 (jdk_version_resolution
             (Samples.with_jdk (mkVersion 3 3 4) (mkVersion 12 0 1)) (mkVersion 3 3 4)))).
    reflexivity.
Defined.

Lemma unknown_jdk_version_raises_witness :
  jdk_url_and_sha Samples.online
    (resolve_jdk_version (Samples.with_jdk (mkVersion 4 1 0) (mkVersion 9 0 1)) (mkVersion 4 1 0)) [] =
    (inl (ValueError "No URL for JDK version 9.0.1 found."), []) /\
  main Samples.online (Samples.with_jdk (mkVersion 4 1 0) (mkVersion 9 0 1)) [] =
    (inl (ValueError "No URL for JDK version 9.0.1 found."),
     [Urlopen HEAD "https://cdn.crate.io/downloads/releases/crate-4.1.0.tar.gz"]).
Proof.
  destruct (unknown_jdk_version_raises Samples.online
              (Samples.with_jdk (mkVersion 4 1 0) (mkVersion 9 0 1)) (mkVersion 9 0 1) [])
    as [H1 H2]; [reflexivity | vm_compute; reflexivity |].
  split; [exact H1 |]. apply H2. reflexivity.
Defined.

Lemma missing_cratedb_stops_main_witness :
  main Samples.nothing_released (Samples.only_cratedb (mkVersion 9 9 9)) [] =
    (inl (ValueError "No release found for CrateDB 9.9.9"),
     [Urlopen HEAD "https://cdn.crate.io/downloads/releases/crate-9.9.9.tar.gz"]).
Proof.
  apply (proj1 (proj2 (missing_cratedb_stops_main Samples.nothing_released
                         (Samples.only_cratedb (mkVersion 9 9 9)) [] _ eq_refl))).
Defined.

Lemma crash_version_resolution_witness :
  ensure_existing_crash Samples.online None [] =
    (inr (mkVersion 0 24 2), [Urlopen GET "https://crate.io/versions.json"]) /\
  ensure_existing_crash Samples.online (Some (mkVersion 0 24 0)) [] =
    (inr (mkVersion 0 24 0),
     [Urlopen HEAD "https://cdn.crate.io/downloads/releases/crash_standalone_0.24.0"]) /\
  ensure_existing_crash Samples.nothing_released (Some (mkVersion 0 99 0)) [] =
    (inl (ValueError "No release found for crash 0.99.0"),
     [Urlopen HEAD "https://cdn.crate.io/downloads/releases/crash_standalone_0.99.0"]).
Proof.
  split; [| split].
  - apply (proj1 (crash_version_resolution Samples.online [])
             Samples.good_response _ "0.24.2" eq_refl eq_refl).
    vm_compute. reflexivity.
  - apply (proj1 (proj2 (crash_version_resolution Samples.online []))).
    reflexivity.
  - apply (proj2 (proj2 (crash_version_resolution Samples.nothing_released []))).
    reflexivity.
Defined.

Lemma default_jdk_version_has_url_witness :
  exists url,
    JDK_URLS !! Version.astuple
      (resolve_jdk_version (Samples.only_cratedb (mkVersion 4 1 0)) (mkVersion 4 1 0)) = Some url /\
    jdk_url_and_sha Samples.online
      (resolve_jdk_version (Samples.only_cratedb (mkVersion 4 1 0)) (mkVersion 4 1 0)) [] =
      (inr (url, "0f3a"), [Urlopen GET (url ++ ".sha256")]).
Proof.
  destruct (default_jdk_version_has_url Samples.online
              (Samples.only_cratedb (mkVersion 4 1 0)) (mkVersion 4 1 0) [] eq_refl)
    as (_ & _ & url & K & H).
  exists url. split; [exact K | exact H].
Defined.

(** ** Template selection *)

Section Template.

Variable w : world.

Lemma find_template_for_version_result (v : Version) (l : log) :
  find_template_for_version w v l =
    (inr (if os_path_exists w l (versioned_template v)
          then versioned_template v else "Dockerfile.j2"),
     PathExists (versioned_template v) :: l).
Proof. reflexivity. Qed.

(** A template name given by the caller (and not empty) is used as it is,
    without a look at the file system. *)
Lemma resolve_template_explicit (a : args) (v : Version) (t : string) (l : log) :
  template a = Some t -> t <> "" ->
  resolve_template w a v l = (inr t, l).
Proof.
  intros H N. unfold resolve_template, truthy_str. rewrite H.
  destruct (String.eqb_spec t ""); [contradiction | reflexivity].
Qed.

Lemma resolve_template_default (a : args) (v : Version) (l : log) :
  template a = None ->
  resolve_template w a v l = find_template_for_version w v l.
Proof. intros H. unfold resolve_template. now rewrite H. Qed.

(** When the working directory and the template directory agree on the
    versioned name, the selection is the one by the template directory. *)
Lemma find_template_when_directories_agree (v : Version) (l : log) :
  os_path_exists w l (versioned_template v) =
    in_template_directory w l (versioned_template v) ->
  fst (find_template_for_version w v l) =
    inr (if in_template_directory w l (versioned_template v)
         then versioned_template v else "Dockerfile.j2").
Proof. intros H. rewrite find_template_for_version_result. simpl. now rewrite H. Qed.

End Template.

(** C8 (the code at the failing input): started from a working directory
    other than its own, with [Dockerfile_4.1.j2] present in the template
    directory, [find_template_for_version] looks for the name in the
    working directory, does not find it, and selects the generic
    template, which [main] then loads. *)
Theorem find_template_looks_in_working_directory :
  in_template_directory Samples.started_elsewhere [] "Dockerfile_4.1.j2" = true /\
  versioned_template (mkVersion 4 1 0) = "Dockerfile_4.1.j2" /\
  find_template_for_version Samples.started_elsewhere (mkVersion 4 1 0) [] =
    (inr "Dockerfile.j2", [PathExists "Dockerfile_4.1.j2"]) /\
  In (GetTemplate "Dockerfile.j2")
     (snd (main Samples.started_elsewhere (Samples.only_cratedb (mkVersion 4 1 0)) [])).
Proof.
  repeat split. vm_compute. tauto.
Qed.

(** * Further properties of the script *)

(** ** What each step adds to the log *)

Section Steps.

Variable w : world.

Lemma ensure_existing_cratedb_log (v : Version) (l : log) :
  snd (ensure_existing_cratedb w v l) = Urlopen HEAD (cratedb_url v) :: l.
Proof.
  unfold ensure_existing_cratedb, bind.
  pose proof (url_exists_log w (cratedb_url v) l) as H.
  destruct (url_exists w (cratedb_url v) l) as [[e | [|]] l1]; simpl in *; exact H.
Qed.

Lemma latest_crash_log (l : log) :
  snd (latest_crash w l) = Urlopen GET "https://crate.io/versions.json" :: l.
Proof.
  unfold latest_crash. simpl.
  destruct (urlopen w l GET _) as [e | r]; [reflexivity |].
  destruct (json_load r) as [e | d]; [reflexivity |]. simpl.
  destruct (getitem_crash d); reflexivity.
Qed.

Lemma ensure_existing_crash_log (cv : option Version) (l : log) :
  snd (ensure_existing_crash w cv l) = crash_request cv :: l.
Proof.
  destruct cv as [v |]; [| apply latest_crash_log].
  unfold ensure_existing_crash, bind. simpl.
  pose proof (url_exists_log w (crash_url v) l) as H.
  destruct (url_exists w (crash_url v) l) as [[e | [|]] l1]; simpl in *; exact H.
Qed.

Lemma resolve_template_log (a : args) (v : Version) (l : log) :
  v = cratedb_version a ->
  snd (resolve_template w a v l) = (template_lookups a ++ l)%list /\
  exists name, fst (resolve_template w a v l) = inr name.
Proof.
  intros ->. unfold resolve_template, template_lookups.
  destruct (template a) as [t |]; simpl.
  - destruct (String.eqb t ""); simpl; eauto.
  - eauto.
Qed.

Lemma jdk_url_and_sha_inv (v : Version) (l l' : log) (url sha : string) :
  jdk_url_and_sha w v l = (inr (url, sha), l') ->
  JDK_URLS !! Version.astuple v = Some url /\
  l' = Urlopen GET (url ++ ".sha256") :: l /\
  exists r, urlopen w l GET (url ++ ".sha256") = inr r /\ read_decode_utf8 r = inr sha.
Proof.
  unfold jdk_url_and_sha.
  destruct (JDK_URLS !! Version.astuple v) as [u |]; [| discriminate].
  simpl. destruct (urlopen w l GET (u ++ ".sha256")) as [e | r] eqn:E; [discriminate |].
  destruct (read_decode_utf8 r) as [e | s] eqn:R; [discriminate |].
  intros [= <- <- <-]. eauto.
Qed.

Lemma ensure_existing_crash_supplied (v c : Version) (l l' : log) :
  ensure_existing_crash w (Some v) l = (inr c, l') -> c = v.
Proof.
  unfold ensure_existing_crash. simpl.
  destruct (url_exists w (crash_url v) l) as [[e | [|]] l1]; simpl;
    intros [= <- <-] || intros [=]; reflexivity.
Qed.

End Steps.

(** ** A whole run of [main] *)

Section Runs.

Variable w : world.

(** Everything a run of [main] that ends well tells: the accesses it made,
    the template it rendered, the values it handed to it. *)
Lemma main_success_inv (a : args) (l l' : log) :
  main w a l = (inr tt, l') ->
  exists b name t text,
    l' = (Stdout text :: Render b :: Utcnow ::
          crash_request (crash_version a) ::
          Urlopen HEAD (cratedb_url (cratedb_version a)) ::
          GetTemplate name ::
          template_lookups a ++
          Urlopen GET (JDK_URL b ++ ".sha256") ::
          Urlopen HEAD (cratedb_url (cratedb_version a)) :: l)%list /\
    get_template w
      (template_lookups a ++
       Urlopen GET (JDK_URL b ++ ".sha256") ::
       Urlopen HEAD (cratedb_url (cratedb_version a)) :: l)%list name = inr t /\
    render t b = inr text /\
    CRATE_VERSION b = cratedb_version a /\
    JDK_VERSION b = Version.__str__ (resolve_jdk_version a (cratedb_version a)) /\
    JDK_URLS !! Version.astuple (resolve_jdk_version a (cratedb_version a)) = Some (JDK_URL b) /\
    (forall v, crash_version a = Some v -> CRASH_VERSION b = v).
Proof.
  unfold main. unfold bind at 1.
  destruct (ensure_existing_cratedb w (cratedb_version a) l) as [[e | v1] l1] eqn:E1;
    [discriminate |].
  destruct (ensure_existing_cratedb_inv _ _ _ _ _ E1) as [-> _].
  pose proof (ensure_existing_cratedb_log w (cratedb_version a) l) as L1.
  rewrite E1 in L1. simpl in L1. subst l1.
  unfold bind at 1.
  destruct (jdk_url_and_sha w _ _) as [[e | [url sha]] l2] eqn:E2; [discriminate |].
  destruct (jdk_url_and_sha_inv _ _ _ _ _ _ E2) as (K & -> & _).
  unfold bind at 1.
  destruct (resolve_template_log w a (cratedb_version a)
              (Urlopen GET (url ++ ".sha256") ::
               Urlopen HEAD (cratedb_url (cratedb_version a)) :: l)%list eq_refl)
    as (L3 & name & N3).
  destruct (resolve_template w a (cratedb_version a) _) as [r3 l3].
  simpl in L3, N3. subst r3 l3.
  unfold bind at 1. unfold call_get_template at 1.
  destruct (get_template w _ name) as [e | t] eqn:E4; [discriminate |].
  unfold bind at 1.
  match goal with |- context [ensure_existing_cratedb w (cratedb_version a) ?x] =>
    pose proof (ensure_existing_cratedb_log w (cratedb_version a) x) as L5;
    destruct (ensure_existing_cratedb w (cratedb_version a) x) as [[e | v5] l5] eqn:E5
  end; [discriminate |].
  destruct (ensure_existing_cratedb_inv _ _ _ _ _ E5) as [-> _].
  simpl in L5. subst l5.
  unfold bind at 1.
  match goal with |- context [ensure_existing_crash w (crash_version a) ?x] =>
    pose proof (ensure_existing_crash_log w (crash_version a) x) as L6;
    destruct (ensure_existing_crash w (crash_version a) x) as [[e | crash] l6] eqn:E6
  end; [discriminate |].
  simpl in L6. subst l6.
  simpl.
  match goal with |- context [render t ?b] => set (bs := b) end.
  destruct (render t bs) as [e | text] eqn:R; [discriminate |].
  intros [= <-]. exists bs, name, t, text. repeat split; auto.
  intros v Hv. rewrite Hv in E6. simpl. exact (ensure_existing_crash_supplied _ _ _ _ _ E6).
Qed.

(** X1: in a run of [main] that ends well, the values handed to the
    template are the database version as given, the resolved JDK version
    in its string form, the URL the table holds for that JDK version, and
    the client version as given when one was given. *)
Theorem main_success (a : args) (l l' : log) :
  main w a l = (inr tt, l') ->
  exists b text rest,
    l' = (Stdout text :: Render b :: rest)%list /\
    CRATE_VERSION b = cratedb_version a /\
    JDK_VERSION b = Version.__str__ (resolve_jdk_version a (cratedb_version a)) /\
    JDK_URLS !! Version.astuple (resolve_jdk_version a (cratedb_version a)) = Some (JDK_URL b) /\
    (forall v, crash_version a = Some v -> CRASH_VERSION b = v).
Proof.
  intros H.
  destruct (main_success_inv a l l' H) as (b & name & t & text & -> & _ & _ & H1 & H2 & H3 & H4).
  eexists b, text, _. repeat split; eauto.
Qed.

(** X2: a run of [main] that ends well has made exactly these accesses, in
    this order: the probe of the release archive, the fetch of the JDK
    checksum, the look for the versioned template (only when no template
    name was given), the loading of the template, the probe of the
    release archive a second time, the one request for the client
    version, the clock, the rendering, the printing; and the text printed
    is the rendering of the template that was loaded. *)
Theorem main_success_trace (a : args) (l l' : log) :
  main w a l = (inr tt, l') ->
  exists b name t text,
    l' = (Stdout text :: Render b :: Utcnow ::
          crash_request (crash_version a) ::
          Urlopen HEAD (cratedb_url (cratedb_version a)) ::
          GetTemplate name ::
          template_lookups a ++
          Urlopen GET (JDK_URL b ++ ".sha256") ::
          Urlopen HEAD (cratedb_url (cratedb_version a)) :: l)%list /\
    get_template w
      (template_lookups a ++
       Urlopen GET (JDK_URL b ++ ".sha256") ::
       Urlopen HEAD (cratedb_url (cratedb_version a)) :: l)%list name = inr t /\
    render t b = inr text.
Proof.
  intros H.
  destruct (main_success_inv a l l' H) as (b & name & t & text & H1 & H2 & H3 & _).
  exists b, name, t, text. auto.
Qed.

End Runs.

(** ** Kinds of events a computation never adds *)

Section Keeps.

Variable w : world.
Variable P : event -> bool.

Lemma keeps_ret {A} (a : A) : keeps P (ret a).
Proof. intros l r l' [= <- <-]. reflexivity. Qed.

Lemma keeps_raise {A} (e : exception) : keeps P (@raise A e).
Proof. intros l r l' [= <- <-]. reflexivity. Qed.

Lemma keeps_lift {A} (x : exception + A) : keeps P (lift x).
Proof. intros l r l' [= <- <-]. reflexivity. Qed.

Lemma keeps_bind {A B} (m : M A) (k : A -> M B) :
  keeps P m -> (forall a, keeps P (k a)) -> keeps P (bind m k).
Proof.
  intros Hm Hk l r l'. unfold bind.
  destruct (m l) as [[e | a] l1] eqn:E.
  - intros [= <- <-]. exact (Hm _ _ _ E).
  - intros H. rewrite (Hk a _ _ _ H). exact (Hm _ _ _ E).
Qed.


Lemma keeps_try_except {A} (body handler : M A) (catches : exception -> bool) :
  keeps P body -> keeps P handler -> keeps P (try_except body catches handler).
Proof.
  intros Hb Hh l r l'. unfold try_except.
  destruct (body l) as [[e | a] l1] eqn:E.
  - destruct (catches e).
    + intros H. rewrite (Hh _ _ _ H). exact (Hb _ _ _ E).
    + intros [= <- <-]. exact (Hb _ _ _ E).
  - intros [= <- <-]. exact (Hb _ _ _ E).
Qed.

Lemma keeps_call_urlopen (m : method) (url : string) :
  P (Urlopen m url) = false -> keeps P (call_urlopen w m url).
Proof. intros H l r l' [= <- <-]. simpl. now rewrite H. Qed.


Lemma keeps_call_get_template (name : string) :
  P (GetTemplate name) = false -> keeps P (call_get_template w name).
Proof. intros H l r l' [= <- <-]. simpl. now rewrite H. Qed.

Lemma keeps_call_utcnow : P Utcnow = false -> keeps P (call_utcnow_isoformat w).
Proof. intros H l r l' [= <- <-]. simpl. now rewrite H. Qed.

Lemma keeps_call_render (t : Template) (b : bindings) :
  P (Render b) = false -> keeps P (call_render t b).
Proof. intros H l r l' [= <- <-]. simpl. now rewrite H. Qed.


Lemma keeps_weaken {A} (m : M A) : keeps P m -> keeps_on_raise P m.
Proof. intros H l e l' E. exact (H _ _ _ E). Qed.

Hypothesis no_urlopen : forall m url, P (Urlopen m url) = false.

Lemma keeps_url_exists (url : string) : keeps P (url_exists w url).
Proof.
  unfold url_exists. apply keeps_try_except; [| apply keeps_ret].
  apply keeps_bind; [now apply keeps_call_urlopen | intros; apply keeps_ret].
Qed.

Lemma keeps_ensure_existing_cratedb (v : Version) : keeps P (ensure_existing_cratedb w v).
Proof.
  unfold ensure_existing_cratedb. apply keeps_bind; [apply keeps_url_exists |].
  intros [|]; [apply keeps_ret | apply keeps_raise].
Qed.

Lemma keeps_latest_crash : keeps P (latest_crash w).
Proof.
  unfold latest_crash.
  repeat (apply keeps_bind; [first [now apply keeps_call_urlopen | apply keeps_lift] | intros]).
  apply keeps_lift.
Qed.

Lemma keeps_ensure_existing_crash (cv : option Version) :
  keeps P (ensure_existing_crash w cv).
Proof.
  destruct cv as [v |]; [| apply keeps_latest_crash].
  unfold ensure_existing_crash. simpl.
  apply keeps_bind; [apply keeps_url_exists |].
  intros [|]; [apply keeps_ret | apply keeps_raise].
Qed.

Lemma keeps_jdk_url_and_sha (v : Version) : keeps P (jdk_url_and_sha w v).
Proof.
  unfold jdk_url_and_sha.
  destruct (JDK_URLS !! Version.astuple v); [| apply keeps_raise].
  repeat (apply keeps_bind; [first [now apply keeps_call_urlopen | apply keeps_lift] | intros]).
  apply keeps_ret.
Qed.

End Keeps.

Section Output.

Variable w : world.




End Output.

Section TemplateArgument.

Variable w : world.

Lemma keeps_print (P : event -> bool) (text : string) :
  P (Stdout text) = false -> keeps P (print text).
Proof. intros H l r l' [= <- <-]. simpl. now rewrite H. Qed.

(** X4: a template name given by the caller and not empty is used as it
    is, and then no run of [main] looks at the file system, however it
    ends; an empty name counts as no name: the selection by version is
    made. *)
Theorem template_argument_rules (a : args) :
  (forall t, template a = Some t -> t <> "" ->
     keeps is_path_exists (main w a) /\
     forall v l, resolve_template w a v l = (inr t, l)) /\
  (template a = Some "" ->
     forall v l, resolve_template w a v l = find_template_for_version w v l).
Proof.
  split.
  - intros t Ht Ne.
    assert (R : forall v l, resolve_template w a v l = (inr t, l)).
    { intros v l. unfold resolve_template, truthy_str. rewrite Ht.
      destruct (String.eqb_spec t ""); [contradiction | reflexivity]. }
    split; [| exact R].
    unfold main.
    apply keeps_bind; [now apply keeps_ensure_existing_cratedb | intros cratedb].
    apply keeps_bind; [now apply keeps_jdk_url_and_sha | intros [url sha]].
    apply keeps_bind.
    { intros l r l' E. rewrite R in E. now injection E as <- <-. }
    intros name.
    apply keeps_bind; [now apply keeps_call_get_template | intros tpl].
    apply keeps_bind; [now apply keeps_ensure_existing_cratedb | intros crate].
    apply keeps_bind; [now apply keeps_ensure_existing_crash | intros crash].
    apply keeps_bind; [now apply keeps_call_utcnow | intros now].
    apply keeps_bind; [now apply keeps_call_render | intros text].
    now apply keeps_print.
  - intros Ht v l. unfold resolve_template. now rewrite Ht.
Qed.

End TemplateArgument.

Lemma template_argument_rules_witness :
  List.filter is_path_exists
    (snd (main Samples.online (Cases.with_template (mkVersion 4 1 0) "Dockerfile_custom.j2") [])) = [] /\
  resolve_template Samples.online (Cases.with_template (mkVersion 4 1 0) "Dockerfile_custom.j2")
    (mkVersion 4 1 0) [] = (inr "Dockerfile_custom.j2", []) /\
  resolve_template Samples.online (Cases.with_template (mkVersion 4 1 0) "") (mkVersion 4 1 0) [] =
    (inr "Dockerfile.j2", [PathExists "Dockerfile_4.1.j2"]).
Proof.
  destruct (proj1 (template_argument_rules Samples.online
                     (Cases.with_template (mkVersion 4 1 0) "Dockerfile_custom.j2"))
              "Dockerfile_custom.j2" eq_refl ltac:(discriminate)) as [K R].
  split; [| split].
  - exact (K [] _ _ (surjective_pairing
                       (main Samples.online
                          (Cases.with_template (mkVersion 4 1 0) "Dockerfile_custom.j2") []))).
  - apply R.
  - rewrite (proj2 (template_argument_rules Samples.online
                      (Cases.with_template (mkVersion 4 1 0) "")) eq_refl).
    reflexivity.
Defined.

(** ** Requests whose failure is not absorbed *)

Section Fetches.

Variable w : world.

(** X5: only the existence probe turns a failed request into an answer.
    An exception of the request for the metadata document, or of the
    request for the checksum of a JDK that is in the table, is raised
    unchanged by [latest_crash], by [ensure_existing_crash] without a
    version, and by [jdk_url_and_sha], also when it is a [URLError]. *)
Theorem fetch_failures_are_raised (l : log) (e : exception) :
  (urlopen w l GET "https://crate.io/versions.json" = inl e ->
     latest_crash w l = (inl e, Urlopen GET "https://crate.io/versions.json" :: l) /\
     ensure_existing_crash w None l =
       (inl e, Urlopen GET "https://crate.io/versions.json" :: l)) /\
  (forall v url,
     JDK_URLS !! Version.astuple v = Some url ->
     urlopen w l GET (url ++ ".sha256") = inl e ->
     jdk_url_and_sha w v l = (inl e, Urlopen GET (url ++ ".sha256") :: l)).
Proof.
  split.
  - intros H. unfold ensure_existing_crash, latest_crash. simpl. now rewrite H.
  - intros v url K H. rewrite (jdk_url_and_sha_found w v url l K). now rewrite H.
Qed.

Lemma latest_crash_inv (v : Version) (l l' : log) :
  latest_crash w l = (inr v, l') ->
  exists r fields s,
    urlopen w l GET "https://crate.io/versions.json" = inr r /\
    json_load r = inr (JDict fields) /\
    fields !! "crash" = Some (JStr s) /\
    Version.parse s = inr v.
Proof.
  unfold latest_crash. simpl.
  destruct (urlopen w l GET _) as [e | r]; [discriminate |].
  destruct (json_load r) as [e | d] eqn:J; [discriminate |]. simpl.
  destruct d as [| | | | | | fields]; simpl; try discriminate.
  destruct (fields !! "crash") as [x |] eqn:F; simpl; [| discriminate].
  destruct x; simpl; try discriminate.
  intros [= H _]. exists r, fields, s. auto.
Qed.

(** X6: the client version taken from the metadata is well formed or there
    is none: [ensure_existing_crash] without a version returns [v] only
    when the document is an object whose field [crash] is a string that
    [Version.parse] turns into [v]; and a document that is an object
    without that field makes it raise [KeyError]. *)
Theorem latest_crash_needs_crash_field (l : log) :
  (forall v l', ensure_existing_crash w None l = (inr v, l') ->
     exists r fields s,
       urlopen w l GET "https://crate.io/versions.json" = inr r /\
       json_load r = inr (JDict fields) /\
       fields !! "crash" = Some (JStr s) /\
       Version.parse s = inr v /\
       three_int_components s = true) /\
  (forall r fields,
     urlopen w l GET "https://crate.io/versions.json" = inr r ->
     json_load r = inr (JDict fields) ->
     fields !! "crash" = None ->
     ensure_existing_crash w None l =
       (inl (KeyError "crash"), Urlopen GET "https://crate.io/versions.json" :: l)).
Proof.
  split.
  - intros v l' H. destruct (latest_crash_inv v l l' H) as (r & fields & s & H1 & H2 & H3 & H4).
    exists r, fields, s. repeat split; try assumption.
    exact (parse_ok_three_components s v H4).
  - intros r fields H1 H2 H3. unfold ensure_existing_crash, latest_crash. simpl.
    rewrite H1, H2. simpl. now rewrite H3.
Qed.

End Fetches.

Lemma fetch_failures_are_raised_witness :
  ensure_existing_crash Cases.metadata_down None [] =
    (inl (URLError "Name or service not known"), [Urlopen GET "https://crate.io/versions.json"]) /\
  fst (jdk_url_and_sha Cases.checksum_down (mkVersion 12 0 1) []) = inl (HTTPError 503).
Proof.
  split.
  - apply (proj1 (fetch_failures_are_raised Cases.metadata_down [] _)). reflexivity.
  - rewrite (proj2 (fetch_failures_are_raised Cases.checksum_down [] (HTTPError 503))
               (mkVersion 12 0 1) _ ltac:(vm_compute; reflexivity) eq_refl).
    reflexivity.
Defined.

Lemma latest_crash_needs_crash_field_witness :
  ensure_existing_crash Cases.no_crash_field None [] =
    (inl (KeyError "crash"), [Urlopen GET "https://crate.io/versions.json"]) /\
  exists s, Version.parse s = inr (mkVersion 0 24 2) /\ three_int_components s = true.
Proof.
  split.
  - apply (proj2 (latest_crash_needs_crash_field Cases.no_crash_field []) _ _ eq_refl eq_refl).
    vm_compute. reflexivity.
  - destruct (proj1 (latest_crash_needs_crash_field Samples.online [])
                (mkVersion 0 24 2) _ eq_refl) as (_ & _ & s & _ & _ & _ & P & T).
    exists s. split; assumption.
Defined.

(** ** The probes return what they were given *)

Section Ensure.

Variable w : world.

(** X7: [ensure_existing_cratedb] and [ensure_existing_crash] with a
    version return no other version than the one given, and only after a
    HEAD request for that version's URL was answered; with a version
    given, whatever it is, [ensure_existing_crash] makes this one request
    and never asks for the metadata document. *)
Theorem ensure_existing_returns_argument (v : Version) (l : log) :
  (forall v' l', ensure_existing_cratedb w v l = (inr v', l') ->
     v' = v /\ exists r, urlopen w l HEAD (cratedb_url v) = inr r) /\
  snd (ensure_existing_crash w (Some v) l) = Urlopen HEAD (crash_url v) :: l /\
  (forall v' l', ensure_existing_crash w (Some v) l = (inr v', l') ->
     v' = v /\ exists r, urlopen w l HEAD (crash_url v) = inr r).
Proof.
  split; [| split].
  - intros v' l' H. destruct (ensure_existing_cratedb_inv w _ _ _ _ H) as [-> U].
    split; [reflexivity | exact (url_exists_true_inv w _ _ _ U)].
  - exact (ensure_existing_crash_log w (Some v) l).
  - intros v' l' H. split; [exact (ensure_existing_crash_supplied w _ _ _ _ H) |].
    unfold ensure_existing_crash in H. simpl in H.
    destruct (url_exists w (crash_url v) l) as [[e | [|]] l1] eqn:U; try discriminate H.
    exact (url_exists_true_inv w _ _ _ U).
Qed.

End Ensure.

Lemma ensure_existing_returns_argument_witness :
  mkVersion 4 1 0 = mkVersion 4 1 0 /\
  snd (ensure_existing_crash Samples.online (Some (mkVersion 0 0 0)) []) =
    [Urlopen HEAD "https://cdn.crate.io/downloads/releases/crash_standalone_0.0.0"].
Proof.
  split.
  - apply (proj1 (ensure_existing_returns_argument Samples.online (mkVersion 4 1 0) [])
             (mkVersion 4 1 0) _ eq_refl).
  - apply (proj1 (proj2 (ensure_existing_returns_argument Samples.online (mkVersion 0 0 0) []))).
Defined.

(** ** The JDK table *)

Lemma JDK_URLS_keys (k : Z * Z * Z) (url : string) :
  JDK_URLS !! k = Some url -> k = (12, 0, 1) \/ k = (11, 0, 1).
Proof.
  unfold JDK_URLS. rewrite !lookup_insert_Some, lookup_empty.
  intros [[<- _] | [_ [[<- _] | [_ H]]]]; [now left | now right | discriminate H].
Qed.

(** X8: the table knows 12.0.1 and 11.0.1 and nothing else, so
    [jdk_url_and_sha] returns only for these two versions, and a run of
    [main] with any other JDK version given never ends well. *)
Theorem only_table_jdk_versions (w : world) (v : Version) :
  (forall l url sha l', jdk_url_and_sha w v l = (inr (url, sha), l') ->
     v = mkVersion 12 0 1 \/ v = mkVersion 11 0 1) /\
  (forall a l l', jdk_version a = Some v -> main w a l = (inr tt, l') ->
     v = mkVersion 12 0 1 \/ v = mkVersion 11 0 1).
Proof.
  assert (T : forall url, JDK_URLS !! Version.astuple v = Some url ->
              v = mkVersion 12 0 1 \/ v = mkVersion 11 0 1).
  { intros url K. destruct v as [x y z].
    destruct (JDK_URLS_keys _ _ K) as [E | E]; injection E as -> -> ->; auto. }
  split.
  - intros l url sha l' H. destruct (jdk_url_and_sha_inv w _ _ _ _ _ H) as (K & _).
    exact (T url K).
  - intros a l l' Hv H.
    destruct (main_success_inv w a l l' H) as (b & name & t & text & _ & _ & _ & _ & _ & K & _).
    unfold resolve_jdk_version in K. rewrite Hv in K. exact (T _ K).
Qed.

Lemma only_table_jdk_versions_witness :
  mkVersion 11 0 1 = mkVersion 12 0 1 \/ mkVersion 11 0 1 = mkVersion 11 0 1.
Proof.
  apply (proj2 (only_table_jdk_versions Samples.online (mkVersion 11 0 1))
           (Samples.with_jdk (mkVersion 4 1 0) (mkVersion 11 0 1)) []
           (snd (main Samples.online (Samples.with_jdk (mkVersion 4 1 0) (mkVersion 11 0 1)) []))).
  - reflexivity.
  - vm_compute. reflexivity.
Defined.

(** ** Which exception [Version.parse] raises *)

Section ParseErrors.

Lemma map_int_ok (l : list string) :
  forallb int_parsable l = true ->
  exists ys, Py.map_raising Py.int l = inr ys /\ length ys = length l.
Proof.
  induction l as [| x l IH]; simpl.
  - intros _. exists []. auto.
  - unfold int_parsable at 1. destruct (Py.int x) as [e | y]; [discriminate |].
    simpl. intros H. destruct (IH H) as (ys & -> & L). exists (y :: ys). simpl. auto.
Qed.

Lemma map_int_ok_inv (l : list string) (ys : list Z) :
  Py.map_raising Py.int l = inr ys ->
  forallb int_parsable l = true /\ length ys = length l.
Proof.
  revert ys. induction l as [| x l IH]; simpl; intros ys.
  - intros [= <-]. auto.
  - unfold int_parsable at 1. destruct (Py.int x) as [e | y]; [discriminate |].
    destruct (Py.map_raising Py.int l) as [e | zs]; [discriminate |].
    intros [= <-]. destruct (IH zs eq_refl) as [-> L]. simpl. auto.
Qed.

(** With fewer than three pieces there was no cut left to make: the
    bounded split is the full one. *)
Lemma split_short (s : string) :
  (length (Py.split "." 2 s) < 3)%nat \/ (length (Py.split_all "." s) < 3)%nat ->
  Py.split "." 2 s = Py.split_all "." s.
Proof.
  destruct (split_decompose "." 2 s) as (pre & lst & H1 & H2 & H3 & H4).
  rewrite H1, H2, !length_app. simpl.
  pose proof (split_all_nonempty "." lst) as N.
  intros H. assert (L : (length pre < 2)%nat).
  { destruct H as [H | H]; [lia |]. destruct (Py.split_all "." lst); [now destruct N |].
    simpl in H. lia. }
  now rewrite (split_all_no_sep "." lst (H4 L)).
Qed.

(** X9: when [Version.parse] raises, it raises [TypeError] exactly when the
    text has fewer than three dot-separated components and [int] accepts
    all of them; in every other case ([int] rejects a component, or there
    are more than three) it raises the [ValueError] of [int]. *)
Theorem parse_error_kind (s : string) (e : exception) :
  Version.parse s = inl e ->
  if forallb int_parsable (Py.split_all "." s) && (length (Py.split_all "." s) <? 3)%nat
  then exists msg, e = TypeError msg
  else e = ValueError "invalid literal for int() with base 10".
Proof.
  unfold Version.parse.
  destruct (Py.map_raising Py.int (Py.split "." 2 s)) as [e' | ys] eqn:E.
  - intros [= <-].
    assert (V : e' = ValueError "invalid literal for int() with base 10").
    { clear -E. revert E. induction (Py.split "." 2 s) as [| x l IH]; simpl; [discriminate |].
      destruct (Py.int x) eqn:I; [intros [= <-]; exact (int_raises _ _ I) |].
      destruct (Py.map_raising Py.int l); [| discriminate].
      intros [= <-]. now apply IH. }
    destruct (forallb int_parsable (Py.split_all "." s)) eqn:F; [| exact V].
    destruct (Nat.ltb_spec (length (Py.split_all "." s)) 3) as [L | _]; [| exact V].
    rewrite <- (split_short s (or_intror L)) in F.
    destruct (map_int_ok _ F) as (ys & Y & _). rewrite Y in E. discriminate E.
  - destruct (map_int_ok_inv _ _ E) as [F L].
    assert (B : (length (Py.split "." 2 s) <= 3)%nat).
    { destruct (split_decompose "." 2 s) as (pre & lst & -> & _ & H3 & _).
      rewrite length_app. simpl. lia. }
    destruct ys as [| a [| b [| c [| d t]]]]; simpl in L; intros [= <-];
      first [ exfalso; lia
            | rewrite <- (split_short s) by (left; lia); rewrite F;
              destruct (Nat.ltb_spec (length (Py.split "." 2 s)) 3); [simpl; eauto | lia] ].
Qed.

End ParseErrors.

Lemma parse_error_kind_witness :
  (exists msg, TypeError "__new__() missing required positional arguments" = TypeError msg) /\
  ValueError "invalid literal for int() with base 10" =
    ValueError "invalid literal for int() with base 10" /\
  ValueError "invalid literal for int() with base 10" =
    ValueError "invalid literal for int() with base 10".
Proof.
  split; [| split].
  - exact (parse_error_kind "4.1" _ eq_refl).
  - exact (parse_error_kind "4.x" _ eq_refl).
  - exact (parse_error_kind "4.1.0.2" _ eq_refl).
Defined.

(** ** Names built from a version *)

Section Names.

Lemma append_inj_l (s a b : string) : s ++ a = s ++ b -> a = b.
Proof. induction s as [| c s IH]; simpl; [auto | intros [= H]; auto]. Qed.

Lemma length_append (a b : string) :
  String.length (a ++ b) = (String.length a + String.length b)%nat.
Proof. induction a as [| c a IH]; simpl; [reflexivity | now rewrite IH]. Qed.

Lemma append_inj_r (t a b : string) : a ++ t = b ++ t -> a = b.
Proof.
  revert b. induction a as [| c a IH]; intros [| d b] H; simpl in H.
  - reflexivity.
  - apply (f_equal String.length) in H. rewrite !length_append in H. simpl in H. lia.
  - apply (f_equal String.length) in H. rewrite !length_append in H. simpl in H. lia.
  - injection H as -> H. f_equal. now apply IH.
Qed.

Lemma str_inj (x y : Z) : Py.str x = Py.str y -> x = y.
Proof.
  intros H. pose proof (int_str x) as Hx. rewrite H, int_str in Hx. now injection Hx.
Qed.

Lemma version_str_inj (v1 v2 : Version) :
  Version.__str__ v1 = Version.__str__ v2 -> v1 = v2.
Proof.
  intros H. pose proof (parse_str v1) as H1. rewrite H, parse_str in H1. now injection H1.
Qed.

(** X10: two different versions never share their string form, their
    release archive URL or their client artifact URL: a probe is always
    about the version it was asked for. *)
Theorem distinct_versions_distinct_urls (v1 v2 : Version) :
  v1 <> v2 ->
  Version.__str__ v1 <> Version.__str__ v2 /\
  cratedb_url v1 <> cratedb_url v2 /\
  crash_url v1 <> crash_url v2.
Proof.
  intros N. split; [| split]; intros H; apply N, version_str_inj.
  - exact H.
  - unfold cratedb_url in H. apply append_inj_l in H. now apply append_inj_r in H.
  - unfold crash_url in H. now apply append_inj_l in H.
Qed.

(** X11: the versioned template name is made of the major and the minor
    component only: two versions get the same name exactly when they
    agree on both, whatever their hotfix components; and it is never the
    name of the generic template. *)
Theorem versioned_template_per_series (v1 v2 : Version) :
  (versioned_template v1 = versioned_template v2 <->
   major v1 = major v2 /\ minor v1 = minor v2) /\
  versioned_template v1 <> "Dockerfile.j2".
Proof.
  split; [split |].
  - unfold versioned_template. intros H. apply append_inj_l in H.
    change (Py.str (major v1) ++ String "." (Py.str (minor v1) ++ ".j2") =
            Py.str (major v2) ++ String "." (Py.str (minor v2) ++ ".j2")) in H.
    apply (f_equal (Py.split "." 1)) in H.
    rewrite !(split_app_sep "." 0 _ _ (str_no_dot _)), !split_zero in H.
    injection H as Ha Hb. apply str_inj in Ha.
    apply (f_equal (Py.split "." 1)) in Hb.
    rewrite !(split_app_sep "." 0 _ _ (str_no_dot _)) in Hb.
    injection Hb as Hb. apply str_inj in Hb. auto.
  - intros [Ha Hb]. unfold versioned_template. now rewrite Ha, Hb.
  - unfold versioned_template. simpl. discriminate.
Qed.

End Names.

Lemma distinct_versions_distinct_urls_witness :
  Version.__str__ (mkVersion 4 1 0) <> Version.__str__ (mkVersion 4 1 1) /\
  cratedb_url (mkVersion 4 1 0) <> cratedb_url (mkVersion 4 1 1) /\
  crash_url (mkVersion 4 1 0) <> crash_url (mkVersion 4 1 1).
Proof.
  apply (distinct_versions_distinct_urls (mkVersion 4 1 0) (mkVersion 4 1 1)).
  discriminate.
Defined.

Lemma versioned_template_per_series_witness :
  versioned_template (mkVersion 4 1 0) = versioned_template (mkVersion 4 1 7).
Proof.
  apply (proj1 (versioned_template_per_series (mkVersion 4 1 0) (mkVersion 4 1 7))).
  split; reflexivity.
Defined.

Lemma main_success_witness :
  exists b text rest,
    snd (main Samples.online (Cases.with_crash (mkVersion 4 1 0) (mkVersion 0 24 0)) []) =
      (Stdout text :: Render b :: rest)%list /\
    CRATE_VERSION b = mkVersion 4 1 0 /\
    JDK_VERSION b = "12.0.1" /\
    JDK_URLS !! (12, 0, 1) = Some (JDK_URL b) /\
    CRASH_VERSION b = mkVersion 0 24 0.
Proof.
  destruct (main_success Samples.online (Cases.with_crash (mkVersion 4 1 0) (mkVersion 0 24 0)) []
              (snd (main Samples.online (Cases.with_crash (mkVersion 4 1 0) (mkVersion 0 24 0)) [])))
    as (b & text & rest & H1 & H2 & H3 & H4 & H5).
  - vm_compute. reflexivity.
  - exists b, text, rest. repeat split; try assumption. now apply H5.
Defined.

Lemma main_success_trace_witness :
  exists b name t text,
    snd (main Cases.versioned_present (Samples.only_cratedb (mkVersion 4 1 0)) []) =
      [ Stdout text; Render b; Utcnow;
        Urlopen GET "https://crate.io/versions.json";
        Urlopen HEAD "https://cdn.crate.io/downloads/releases/crate-4.1.0.tar.gz";
        GetTemplate name;
        PathExists "Dockerfile_4.1.j2";
        Urlopen GET (JDK_URL b ++ ".sha256");
        Urlopen HEAD "https://cdn.crate.io/downloads/releases/crate-4.1.0.tar.gz" ]%list /\
    render t b = inr text.
Proof.
  destruct (main_success_trace Cases.versioned_present (Samples.only_cratedb (mkVersion 4 1 0)) []
              (snd (main Cases.versioned_present (Samples.only_cratedb (mkVersion 4 1 0)) [])))
    as (b & name & t & text & H1 & _ & H3).
  - vm_compute. reflexivity.
  - exists b, name, t, text. split; [exact H1 | exact H3].
Defined.

(** ** The second probe of the release archive *)

Section SecondProbe.

Variable w : world.

(** X12: [main] probes the release archive twice, before resolving the JDK
    and again when it builds the arguments of the rendering.  When the
    first probe is answered and the second, made after the template was
    loaded, answers false, [main] raises the not-found error of the
    database version and renders nothing. *)
Theorem second_probe_counts (a : args) (l : log) (url sha name : string)
    (r1 r2 : response) (t : Template) (e : exception) :
  let probe := Urlopen HEAD (cratedb_url (cratedb_version a)) in
  let fetched := (Urlopen GET (url ++ ".sha256") :: probe :: l)%list in
  let looked := (template_lookups a ++ fetched)%list in
  urlopen w l HEAD (cratedb_url (cratedb_version a)) = inr r1 ->
  JDK_URLS !! Version.astuple (resolve_jdk_version a (cratedb_version a)) = Some url ->
  urlopen w (probe :: l) GET (url ++ ".sha256") = inr r2 ->
  read_decode_utf8 r2 = inr sha ->
  fst (resolve_template w a (cratedb_version a) fetched) = inr name ->
  get_template w looked name = inr t ->
  urlopen w (GetTemplate name :: looked) HEAD (cratedb_url (cratedb_version a)) = inl e ->
  isinstance_URLError e = true ->
  main w a l =
    (inl (ValueError ("No release found for CrateDB " ++ Version.__str__ (cratedb_version a))),
     probe :: GetTemplate name :: looked).
Proof.
  intros probe fetched looked H1 K H2 S N T H5 U.
  unfold main. unfold bind at 1.
  rewrite (ensure_existing_cratedb_found w _ l (probe :: l)%list)
    by (unfold url_exists; simpl; now rewrite H1).
  unfold bind at 1. rewrite (jdk_url_and_sha_found w _ url _ K). fold probe. rewrite H2, S.
  unfold bind at 1. fold fetched.
  destruct (resolve_template_log w a (cratedb_version a) fetched eq_refl) as (L3 & _).
  destruct (resolve_template w a (cratedb_version a) fetched) as [r3 l3].
  simpl in N, L3. subst r3 l3. fold looked.
  unfold bind at 1. unfold call_get_template at 1. rewrite T.
  unfold bind at 1.
  rewrite (ensure_existing_cratedb_missing w _ (GetTemplate name :: looked)
             (probe :: GetTemplate name :: looked)%list)
    by (unfold url_exists; simpl; now rewrite H5, U).
  reflexivity.
Qed.

End SecondProbe.

Lemma second_probe_counts_witness :
  main Cases.vanishing (Samples.only_cratedb (mkVersion 4 1 0)) [] =
    (inl (ValueError "No release found for CrateDB 4.1.0"),
     [ Urlopen HEAD "https://cdn.crate.io/downloads/releases/crate-4.1.0.tar.gz";
       GetTemplate "Dockerfile.j2";
       PathExists "Dockerfile_4.1.j2";
       Urlopen GET "https://download.java.net/java/GA/jdk12.0.1/69cfe15208a647278a19ef0990eea691/12/GPL/openjdk-12.0.1_linux-x64_bin.tar.gz.sha256";
       Urlopen HEAD "https://cdn.crate.io/downloads/releases/crate-4.1.0.tar.gz" ]%list).
Proof.
  apply (second_probe_counts Cases.vanishing (Samples.only_cratedb (mkVersion 4 1 0)) []
           "https://download.java.net/java/GA/jdk12.0.1/69cfe15208a647278a19ef0990eea691/12/GPL/openjdk-12.0.1_linux-x64_bin.tar.gz"
           "0f3a" "Dockerfile.j2" Samples.good_response Samples.good_response
           Samples.echo_template (HTTPError 404));
    reflexivity.
Defined.
